(** * Triac power regulator: numeric conversions and interrupt handlers

    A shallow embedding of [SW/src/functions.c] and [SW/src/main.c]
    (firmware of a mains phase-cut regulator on an 8-bit AVR) together
    with the properties of its percentage mapping, its register value
    mapping, its timer programming and its two-state controller.

    Target data model (avr-gcc): [unsigned] and [int] are 16 bits wide,
    [unsigned long] is 32 bits wide, [char] and every I/O register are
    8 bits wide.  Integers are modelled as [Z] with the wrap-around of
    each C type written out. *)

From Stdlib Require Import ZArith List Bool Lia QArith Qround.
Import ListNotations.
Local Open Scope Z_scope.

(* ================================================================= *)
(** ** C integer types of the target *)

Module CInt.

(** Value of an expression converted to [unsigned char] / [char]: an
    8-bit pattern.  [char] values of this program only ever flow into
    the 8-bit register OCR0A, so a [char] is represented by its bit
    pattern [0..255] whatever its signedness. *)
Definition u8 (z : Z) : Z := z mod 2 ^ 8.

(** Conversion to [unsigned] (16 bits). *)
Definition u16 (z : Z) : Z := z mod 2 ^ 16.

(** Conversion to [unsigned long] (32 bits). *)
Definition u32 (z : Z) : Z := z mod 2 ^ 32.

(** Conversion to [int] (16 bits, two's complement). *)
Definition s16 (z : Z) : Z := (z + 2 ^ 15) mod 2 ^ 16 - 2 ^ 15.

End CInt.
Import CInt.

(* ================================================================= *)
(** ** Constants of [functions.h] *)

Definition UPPER_THRESHOLD_VALUE : Z := 941.
Definition LOWER_THRESHOLD_VALUE : Z := 220.
Definition MAX_ADC_VALUE : Z := 1023.
Definition MIN_ADC_VALUE : Z := 205.
Definition ADC_RANGE_VALUE : Z := MAX_ADC_VALUE - MIN_ADC_VALUE.

Definition ZERO_CROSS_DELAY_US : Z := 1000.
Definition ZERO_CROSS_DELAY_OCR0A_PRESC_64 : Z := 74.
Definition TRIGGER_PULSE_DURATION_PRESC_8 : Z := 149.
Definition HALF_PERIOD_DURATION_US : Z := 10000.

(* ================================================================= *)
(** ** Pure conversions of [functions.c] *)

(** [unsigned CalculateADCValue(unsigned ADCValue)].  The argument is an
    [unsigned], so it is taken modulo [2^16]; the linear branch is
    evaluated in [unsigned long] and converted back to [unsigned]. *)
Definition CalculateADCValue (ADCValue : Z) : Z :=
  let ADCValue := u16 ADCValue in
  if ADCValue >? u16 UPPER_THRESHOLD_VALUE then 100
  else if ADCValue <? u16 LOWER_THRESHOLD_VALUE then 0
  else
    let a := u32 (u32 (u32 (u32 ADCValue - u32 MIN_ADC_VALUE) * 100)
                  / u32 ADC_RANGE_VALUE) in
    u16 a.

(** The local [volatile unsigned long a] of [CalculateRegisterValue]:
    [(48 * (unsigned long)time / 10 / (unsigned long)prescaler) - 1] in
    32-bit unsigned arithmetic.  (A zero prescaler is undefined in C;
    the callers pass 8, 64 or 256.) *)
Definition CalculateRegisterValue_a (prescaler time : Z) : Z :=
  u32 (u32 (u32 (u32 (48 * u32 (u16 time)) / 10) / u32 (u16 prescaler)) - 1).

(** [char CalculateRegisterValue(unsigned prescaler, unsigned time)]:
    the low 8 bits of [a]. *)
Definition CalculateRegisterValue (prescaler time : Z) : Z :=
  u8 (CalculateRegisterValue_a prescaler time).

(** The local [volatile unsigned timeDelay] of [SetWaitingPulse], in
    16-bit unsigned arithmetic. *)
Definition timeDelay (percent : Z) : Z :=
  u16 (u16 HALF_PERIOD_DURATION_US
       - u16 (u16 (u16 (u16 HALF_PERIOD_DURATION_US / 100) * u16 percent)
              + u16 ZERO_CROSS_DELAY_US)).

(* ================================================================= *)
(** ** The microcontroller as seen by the handlers *)

(** I/O registers the run-time code touches (all 8 bits wide). *)
Inductive reg : Type :=
| PORTB | TCCR0B | TIMSK0 | TIFR0 | OCR0A | TCNT0 | ADCSRA | ADCL | ADCH.

Definition reg_eqb (a b : reg) : bool :=
  match a, b with
  | PORTB, PORTB | TCCR0B, TCCR0B | TIMSK0, TIMSK0 | TIFR0, TIFR0
  | OCR0A, OCR0A | TCNT0, TCNT0 | ADCSRA, ADCSRA | ADCL, ADCL
  | ADCH, ADCH => true
  | _, _ => false
  end.

(** Bit numbers of the device header [<avr/io.h>] (ATtiny13: INT0 on
    PB1, ADC3 on PB3, vector TIM0_COMPA). *)
Module Bit.
Definition PB0 : Z := 0.
Definition CS00 : Z := 0.
Definition CS01 : Z := 1.
Definition CS02 : Z := 2.
Definition OCIE0A : Z := 2.
Definition OCF0A : Z := 2.
Definition ADSC : Z := 6.
End Bit.
Import Bit.

(** [typedef enum { WAITING_FOR_TRIGGER, SWITCHING } controller_states]. *)
Inductive controller_states : Type :=
| WAITING_FOR_TRIGGER
| SWITCHING.

(** One access to a [volatile] I/O register, in program order. *)
Inductive io_access : Type :=
| IoRead (r : reg)
| IoWrite (r : reg) (v : Z).

(** Machine state: the register file, the globals [ADCResult] and
    [state] of [main.c], and the trace of I/O accesses made so far
    (oldest first). *)
Record mcu : Type := mkMcu {
  regs : reg -> Z;
  io_log : list io_access;
  ADCResult : Z;
  state : controller_states
}.

(** Effect of writing [v] to register [r].  A register keeps the low 8
    bits of what is written, except the flag register TIFR0 where a
    written 1 clears the flag ("Clear interrupt flags" in [SetTimer]). *)
Definition store (r : reg) (v : Z) (f : reg -> Z) : reg -> Z :=
  fun r' =>
    if reg_eqb r r' then
      match r with
      | TIFR0 => u8 (Z.land (f TIFR0) (Z.lnot v))
      | _ => u8 v
      end
    else f r'.

(** State monad of the handlers. *)
Definition M (A : Type) : Type := mcu -> A * mcu.

Definition ret {A : Type} (a : A) : M A := fun s => (a, s).

Definition bind {A B : Type} (m : M A) (k : A -> M B) : M B :=
  fun s => let (a, s') := m s in k a s'.

Notation "x <- c1 ;; c2" := (bind c1 (fun x => c2))
  (at level 61, c1 at next level, right associativity).
Notation "c1 ;; c2" := (bind c1 (fun _ => c2))
  (at level 61, right associativity).

Definition exec (m : M unit) (s : mcu) : mcu := snd (m s).

(** Read of an I/O register. *)
Definition rd (r : reg) : M Z :=
  fun s => (regs s r,
            mkMcu (regs s) (io_log s ++ [IoRead r]) (ADCResult s) (state s)).

(** Write of an I/O register. *)
Definition wr (r : reg) (v : Z) : M unit :=
  fun s => (tt,
            mkMcu (store r v (regs s)) (io_log s ++ [IoWrite r (u8 v)])
                  (ADCResult s) (state s)).

Definition get_ADCResult : M Z := fun s => (ADCResult s, s).

Definition set_ADCResult (v : Z) : M unit :=
  fun s => (tt, mkMcu (regs s) (io_log s) (s16 v) (state s)).

Definition get_state : M controller_states := fun s => (state s, s).

Definition set_state (c : controller_states) : M unit :=
  fun s => (tt, mkMcu (regs s) (io_log s) (ADCResult s) c).

(** *** Macros of [functions.h] *)

(** [PORTB &= ~(1 << PB0)] *)
Definition OPTOTRIAC_OFF : M unit :=
  v <- rd PORTB ;; wr PORTB (Z.land v (Z.lnot (Z.shiftl 1 PB0))).

(** [PORTB |= (1 << PB0)] *)
Definition OPTOTRIAC_ON : M unit :=
  v <- rd PORTB ;; wr PORTB (Z.lor v (Z.shiftl 1 PB0)).

(** [TCCR0B &= ~((1 << CS00) | (1 << CS01) | (1 << CS02))] *)
Definition TIMER_STOP : M unit :=
  v <- rd TCCR0B ;;
  wr TCCR0B (Z.land v (Z.lnot (Z.lor (Z.lor (Z.shiftl 1 CS00) (Z.shiftl 1 CS01))
                                     (Z.shiftl 1 CS02)))).

(** [TIMSK0 |= (1 << OCIE0A)] *)
Definition TIMER_INT_ON : M unit :=
  v <- rd TIMSK0 ;; wr TIMSK0 (Z.lor v (Z.shiftl 1 OCIE0A)).

(** [TIMSK0 &= ~(1 << OCIE0A)] *)
Definition TIMER_INT_OFF : M unit :=
  v <- rd TIMSK0 ;; wr TIMSK0 (Z.land v (Z.lnot (Z.shiftl 1 OCIE0A))).

(** *** Run-time functions of [functions.c] *)

(** [void ADCStart(void)]: [ADCSRA |= (1 << ADSC)]. *)
Definition ADCStart : M unit :=
  v <- rd ADCSRA ;; wr ADCSRA (Z.lor v (Z.shiftl 1 ADSC)).

(** [void SetTimer(unsigned prescaler, char OCValue)].  The [switch]
    has no default: another prescaler leaves the clock stopped. *)
Definition SetTimer (prescaler OCValue : Z) : M unit :=
  TIMER_INT_OFF ;;
  TIMER_STOP ;;
  match u16 prescaler with
  | 8 => v <- rd TCCR0B ;; wr TCCR0B (Z.lor v (Z.shiftl 1 CS01))
  | 64 => v <- rd TCCR0B ;;
          wr TCCR0B (Z.lor v (Z.lor (Z.shiftl 1 CS00) (Z.shiftl 1 CS01)))
  | 256 => v <- rd TCCR0B ;; wr TCCR0B (Z.lor v (Z.shiftl 1 CS02))
  | _ => ret tt
  end ;;
  f <- rd TIFR0 ;; wr TIFR0 (Z.lor f (Z.shiftl 1 OCF0A)) ;;
  c <- rd TCNT0 ;; wr OCR0A (c + u8 OCValue) ;;
  m <- rd TIMSK0 ;; wr TIMSK0 (Z.lor m (Z.shiftl 1 OCIE0A)).

(** [void SetWaitingPulse(unsigned percent)]. *)
Definition SetWaitingPulse (percent : Z) : M unit :=
  if u16 percent =? 100 then
    SetTimer 64 (u8 ZERO_CROSS_DELAY_OCR0A_PRESC_64)
  else if u16 percent =? 0 then
    TIMER_INT_OFF ;; TIMER_STOP
  else
    let timeDelay := timeDelay percent in
    if timeDelay <? 425 then
      SetTimer 8 (CalculateRegisterValue 8 timeDelay)
    else if timeDelay <? 3400 then
      SetTimer 64 (CalculateRegisterValue 64 timeDelay)
    else
      SetTimer 256 (CalculateRegisterValue 256 timeDelay).

(** *** Interrupt service routines of [main.c] *)

(** [ISR (INT0_vect)]: zero-cross detection. *)
Definition INT0_vect : M unit :=
  OPTOTRIAC_OFF ;;
  r <- get_ADCResult ;;
  SetWaitingPulse (CalculateADCValue (u16 r)) ;;
  set_state WAITING_FOR_TRIGGER ;;
  ADCStart.

(** [ISR (ADC_vect)]: conversion complete.  The first statement reads
    ADCL into the local [ADCTempResult]; the second reads ADCH and
    assigns [(ADCH << 8) + ADCTempResult] to the [int] [ADCResult]. *)
Definition ADC_vect : M unit :=
  ADCTempResult <- rd ADCL ;;
  h <- rd ADCH ;;
  set_ADCResult (Z.shiftl h 8 + ADCTempResult).

(** [ISR (TIM0_COMPA_vect)]: timer compare match. *)
Definition TIM0_COMPA_vect : M unit :=
  st <- get_state ;;
  match st with
  | WAITING_FOR_TRIGGER =>
      OPTOTRIAC_ON ;;
      set_state SWITCHING ;;
      SetTimer 8 149
  | SWITCHING =>
      OPTOTRIAC_OFF
  end.

(* ================================================================= *)
(** ** Observations on the machine state *)

(** The output line drives the optotriac when bit PB0 of PORTB is set. *)
Definition output_asserted (s : mcu) : bool := Z.testbit (regs s PORTB) PB0.

(** The compare-match interrupt is delivered only while OCIE0A is set. *)
Definition timer_interrupt_enabled (s : mcu) : bool :=
  Z.testbit (regs s TIMSK0) OCIE0A.

(** Clock source of Timer0 selected by CS02:CS01:CS00, as listed in the
    comments of [SetTimer] (0 1 0 = 8, 0 1 1 = 64, 1 0 0 = 256) and the
    data sheet for the remaining codes. *)
Inductive timer_clock : Type :=
| ClockStopped
| ClockDiv (divisor : Z)
| ClockExternal.

Definition clock_select (r : Z) : timer_clock :=
  match Z.testbit r CS02, Z.testbit r CS01, Z.testbit r CS00 with
  | false, false, false => ClockStopped
  | false, false, true => ClockDiv 1
  | false, true, false => ClockDiv 8
  | false, true, true => ClockDiv 64
  | true, false, false => ClockDiv 256
  | true, false, true => ClockDiv 1024
  | true, true, _ => ClockExternal
  end.

Definition timer_clock_of (s : mcu) : timer_clock :=
  clock_select (regs s TCCR0B).

(** The divisor picked by the [if] chain of [SetWaitingPulse] for a
    delay in microseconds. *)
Definition chosen_prescaler (delay : Z) : Z :=
  if delay <? 425 then 8 else if delay <? 3400 then 64 else 256.

(* ================================================================= *)
(** ** The formula of the register value mapping, as specified *)

Definition clock_frequency_hz : Q := inject_Z 4800000.

(** [floor(clockFrequencyHz * durationSeconds / clockDivisor) - 1] over
    the rationals, the duration being given in microseconds.  This is
    the documented formula, to be compared with
    [CalculateRegisterValue]. *)
Definition compare_count_formula (clockDivisor duration_us : Z) : Z :=
  Qfloor (clock_frequency_hz * (inject_Z duration_us / inject_Z 1000000)
          / inject_Z clockDivisor)%Q - 1.

(* ================================================================= *)
(** ** The interrupt-driven system *)

(** The three hardware events. *)
Inductive event : Type :=
| ZeroCross
| AdcComplete
| TimerExpiry.

Definition handler (e : event) : M unit :=
  match e with
  | ZeroCross => INT0_vect
  | AdcComplete => ADC_vect
  | TimerExpiry => TIM0_COMPA_vect
  end.

(** An event runs its handler only if its interrupt is enabled; the
    run-time code only ever masks the timer interrupt. *)
Definition enabled (e : event) (s : mcu) : bool :=
  match e with
  | TimerExpiry => timer_interrupt_enabled s
  | _ => true
  end.

(** Between two handlers the peripherals may change the counter, the
    flags and the conversion registers, but not what the program
    wrote to the port, the timer control, mask and compare registers,
    nor its variables. *)
Definition peripheral_step (s s' : mcu) : Prop :=
  regs s' PORTB = regs s PORTB /\
  regs s' TCCR0B = regs s TCCR0B /\
  regs s' TIMSK0 = regs s TIMSK0 /\
  regs s' OCR0A = regs s OCR0A /\
  io_log s' = io_log s /\
  ADCResult s' = ADCResult s /\
  state s' = state s.

(** One step of the system inside a mains half-cycle, that is, without
    a zero-cross event. *)
Inductive half_cycle_step : mcu -> mcu -> Prop :=
| hc_peripheral s s' :
    peripheral_step s s' -> half_cycle_step s s'
| hc_adc s :
    half_cycle_step s (exec (handler AdcComplete) s)
| hc_timer s :
    enabled TimerExpiry s = true ->
    half_cycle_step s (exec (handler TimerExpiry) s).

Inductive half_cycle_run : mcu -> mcu -> Prop :=
| hc_refl s : half_cycle_run s s
| hc_step s1 s2 s3 :
    half_cycle_step s1 s2 -> half_cycle_run s2 s3 -> half_cycle_run s1 s3.

(** Registers of Timer0 that the program writes. *)
Definition timer_reg (r : reg) : bool :=
  match r with
  | TCCR0B | TIMSK0 | TIFR0 | OCR0A => true
  | _ => false
  end.

(** A computation that writes timer registers only and leaves the
    other registers and both globals alone. *)
Definition timer_only {A : Type} (m : M A) : Prop :=
  forall s,
    (forall r, timer_reg r = false -> regs (snd (m s)) r = regs s r) /\
    ADCResult (snd (m s)) = ADCResult s /\
    state (snd (m s)) = state s.

(** A machine state for examples: every register 0 except the ones
    listed, timer counter at [cnt]. *)
Definition sample_mcu (portb timsk cnt adcl adch : Z)
    (st : controller_states) : mcu :=
  mkMcu (fun r => match r with
                  | PORTB => portb
                  | TIMSK0 => timsk
                  | TCNT0 => cnt
                  | ADCL => adcl
                  | ADCH => adch
                  | _ => 0
                  end) [] 0 st.

(* ================================================================= *)
(** ** Timer durations *)

(** Duration of a compare count in CPU clock cycles, after the comment
    of [TimerInit]: desired time = (OCR0A + 1) / timer clock, the timer
    clock being the input clock divided by the prescaler. *)
Definition timer_cycles (prescaler count : Z) : Z := (count + 1) * prescaler.

(** Duration programmed by the general branch of [SetWaitingPulse] for
    a percentage, in CPU clock cycles. *)
Definition programmed_cycles (percent : Z) : Z :=
  timer_cycles (chosen_prescaler (timeDelay percent))
    (CalculateRegisterValue (chosen_prescaler (timeDelay percent))
       (timeDelay percent)).

(* ================================================================= *)
(** ** Register file after [SetTimer] *)

(** Clock-select code written by the [switch] of [SetTimer]; [None]
    when the prescaler matches no [case] and the clock stays stopped. *)
Definition clock_select_code (prescaler : Z) : option Z :=
  if u16 prescaler =? 8 then Some (Z.shiftl 1 CS01)
  else if u16 prescaler =? 64 then Some (Z.lor (Z.shiftl 1 CS00) (Z.shiftl 1 CS01))
  else if u16 prescaler =? 256 then Some (Z.shiftl 1 CS02)
  else None.

(** The registers once [SetTimer] has run on the register file [f]
    with clock-select code [code] and compare count [OCValue]. *)
Definition after_SetTimer (code : option Z) (OCValue : Z) (f : reg -> Z)
    (r : reg) : Z :=
  match r with
  | TCCR0B =>
      match code with
      | Some k => u8 (Z.lor (u8 (Z.land (f TCCR0B) (Z.lnot 7))) k)
      | None => u8 (Z.land (f TCCR0B) (Z.lnot 7))
      end
  | TIMSK0 => u8 (Z.lor (u8 (Z.land (f TIMSK0) (Z.lnot 4))) 4)
  | TIFR0 => u8 (Z.land (f TIFR0) (Z.lnot (Z.lor (f TIFR0) 4)))
  | OCR0A => u8 (f TCNT0 + u8 OCValue)
  | _ => f r
  end.

(* ================================================================= *)
(** ** Runs of the whole system *)

(** One step of the system: the peripherals move, or an enabled
    interrupt runs its handler to completion. *)
Inductive system_step : mcu -> mcu -> Prop :=
| sys_peripheral s s' :
    peripheral_step s s' -> system_step s s'
| sys_interrupt e s :
    enabled e s = true -> system_step s (exec (handler e) s).

Inductive system_run : mcu -> mcu -> Prop :=
| sys_refl s : system_run s s
| sys_trans s1 s2 s3 :
    system_step s1 s2 -> system_run s2 s3 -> system_run s1 s3.

(** While the output is asserted the controller is in [SWITCHING] and
    the timer that ends the pulse is armed: it runs with divisor 8 and
    its compare interrupt is enabled. *)
Definition pulse_guarded (s : mcu) : Prop :=
  output_asserted s = true ->
  state s = SWITCHING /\
  timer_interrupt_enabled s = true /\
  timer_clock_of s = ClockDiv 8.

(* ================================================================= *)
(** ** Start-up: [main] and the initialisation functions *)

(** Configuration registers written once at start-up. *)
Inductive cfg_reg : Type :=
| DDRB | DIDR0 | ADMUX | MCUCR | GIMSK.

Definition cfg_reg_eqb (a b : cfg_reg) : bool :=
  match a, b with
  | DDRB, DDRB | DIDR0, DIDR0 | ADMUX, ADMUX | MCUCR, MCUCR
  | GIMSK, GIMSK => true
  | _, _ => false
  end.

(** Bit numbers of the configuration registers, from the same device
    header as [Bit]. *)
Module CfgBit.
Definition DDB0 : Z := 0.
Definition ADC3D : Z := 3.
Definition MUX0 : Z := 0.
Definition MUX1 : Z := 1.
Definition ADEN : Z := 7.
Definition ADIE : Z := 3.
Definition ISC00 : Z := 0.
Definition ISC01 : Z := 1.
Definition INT0 : Z := 6.
End CfgBit.
Import CfgBit.

(** The machine at start-up: the run-time part, the configuration
    registers and the global interrupt flag set by [sei]. *)
Record board : Type := mkBoard {
  core : mcu;
  cfg : cfg_reg -> Z;
  global_interrupts : bool
}.

(** [R |= mask] on a configuration register. *)
Definition cfg_or (r : cfg_reg) (mask : Z) (b : board) : board :=
  mkBoard (core b)
    (fun r' => if cfg_reg_eqb r r' then u8 (Z.lor (cfg b r) mask) else cfg b r')
    (global_interrupts b).

(** Run-time code executed on the board. *)
Definition on_core (m : M unit) (b : board) : board :=
  mkBoard (exec m (core b)) (cfg b) (global_interrupts b).

(** [void OptotriacOutputInit(void)] *)
Definition OptotriacOutputInit (b : board) : board :=
  on_core OPTOTRIAC_OFF (cfg_or DDRB (Z.shiftl 1 DDB0) b).

(** [void ADCInit(void)] *)
Definition ADCInit (b : board) : board :=
  on_core (v <- rd ADCSRA ;;
           wr ADCSRA (Z.lor v (Z.lor (Z.shiftl 1 ADEN) (Z.shiftl 1 ADIE))))
    (cfg_or ADMUX (Z.lor (Z.shiftl 1 MUX0) (Z.shiftl 1 MUX1))
       (cfg_or DIDR0 (Z.shiftl 1 ADC3D) b)).

(** [void ZeroDetectorInputInit(void)] *)
Definition ZeroDetectorInputInit (b : board) : board :=
  cfg_or GIMSK (Z.shiftl 1 INT0)
    (cfg_or MCUCR (Z.lor (Z.shiftl 1 ISC00) (Z.shiftl 1 ISC01)) b).

(** [void PinsInit(void)] *)
Definition PinsInit (b : board) : board :=
  ADCInit (ZeroDetectorInputInit (OptotriacOutputInit b)).

(** [void TimerInit(void)]: only comments and a [return]. *)
Definition TimerInit (b : board) : board := b.

(** [sei()] *)
Definition sei (b : board) : board := mkBoard (core b) (cfg b) true.

(** [main] up to its idle loop: [PinsInit(); sei(); ADCStart();]. *)
Definition main_startup (b : board) : board :=
  on_core ADCStart (sei (PinsInit b)).

(* ================================================================= *)
(** * Properties *)

(** ** Facts on the integer conversions *)

Lemma u8_range z : 0 <= u8 z < 256.
Proof. unfold u8. apply Z.mod_pos_bound. reflexivity. Qed.

Lemma u16_range z : 0 <= u16 z < 65536.
Proof. unfold u16. apply Z.mod_pos_bound. reflexivity. Qed.

Lemma u32_range z : 0 <= u32 z < 4294967296.
Proof. unfold u32. apply Z.mod_pos_bound. reflexivity. Qed.

Lemma u8_small z : 0 <= z < 256 -> u8 z = z.
Proof. intros H. unfold u8. apply Z.mod_small. exact H. Qed.

Lemma u16_small z : 0 <= z < 65536 -> u16 z = z.
Proof. intros H. unfold u16. apply Z.mod_small. exact H. Qed.

Lemma u32_small z : 0 <= z < 4294967296 -> u32 z = z.
Proof. intros H. unfold u32. apply Z.mod_small. exact H. Qed.

Lemma s16_small z : - 32768 <= z < 32768 -> s16 z = z.
Proof.
  intros H. unfold s16.
  rewrite Z.mod_small; change (2 ^ 15) with 32768; change (2 ^ 16) with 65536; lia.
Qed.


Lemma u8_of_u32 z : u8 (u32 z) = u8 z.
Proof.
  unfold u8, u32.
  apply Z.mod_mod_divide.
  exists (2 ^ 24). reflexivity.
Qed.

(** Closes goals on constant divisions and remainders. *)
Ltac div_lia := Z.to_euclidean_division_equations; lia.

(* ================================================================= *)
(** ** Percentage mapping: [CalculateADCValue] *)

Section PercentageMapping.

Variable raw : Z.
Hypothesis raw_unsigned : 0 <= raw < 65536.

Lemma CalculateADCValue_above :
  UPPER_THRESHOLD_VALUE < raw -> CalculateADCValue raw = 100.
Proof.
  intros H. unfold CalculateADCValue, UPPER_THRESHOLD_VALUE in *.
  rewrite (u16_small raw) by exact raw_unsigned.
  rewrite (u16_small 941) by lia.
  destruct (raw >? 941) eqn:E; [reflexivity | lia].
Qed.

Lemma CalculateADCValue_below :
  raw < LOWER_THRESHOLD_VALUE -> CalculateADCValue raw = 0.
Proof.
  intros H. unfold CalculateADCValue, UPPER_THRESHOLD_VALUE, LOWER_THRESHOLD_VALUE in *.
  rewrite (u16_small raw) by exact raw_unsigned.
  rewrite (u16_small 941), (u16_small 220) by lia.
  destruct (raw >? 941) eqn:E; [lia |].
  destruct (raw <? 220) eqn:E'; [reflexivity | lia].
Qed.

Lemma CalculateADCValue_linear :
  LOWER_THRESHOLD_VALUE <= raw <= UPPER_THRESHOLD_VALUE ->
  CalculateADCValue raw = (raw - MIN_ADC_VALUE) * 100 / ADC_RANGE_VALUE.
Proof.
  intros H.
  unfold CalculateADCValue, UPPER_THRESHOLD_VALUE, LOWER_THRESHOLD_VALUE,
    ADC_RANGE_VALUE, MAX_ADC_VALUE, MIN_ADC_VALUE in *.
  rewrite (u16_small raw) by exact raw_unsigned.
  rewrite (u16_small 941), (u16_small 220) by lia.
  destruct (raw >? 941) eqn:E; [lia |].
  destruct (raw <? 220) eqn:E'; [lia |].
  cbv zeta.
  rewrite (u32_small raw), (u32_small 205), (u32_small (1023 - 205)) by lia.
  rewrite (u32_small (raw - 205)) by lia.
  rewrite (u32_small ((raw - 205) * 100)) by lia.
  assert (B : 0 <= (raw - 205) * 100 / (1023 - 205) < 90) by div_lia.
  rewrite u32_small, u16_small by lia.
  reflexivity.
Qed.

Lemma CalculateADCValue_linear_range :
  LOWER_THRESHOLD_VALUE <= raw <= UPPER_THRESHOLD_VALUE ->
  1 <= CalculateADCValue raw <= 89.
Proof.
  intros H. rewrite CalculateADCValue_linear by exact H.
  unfold UPPER_THRESHOLD_VALUE, LOWER_THRESHOLD_VALUE,
    ADC_RANGE_VALUE, MAX_ADC_VALUE, MIN_ADC_VALUE in *.
  div_lia.
Qed.

End PercentageMapping.

(** C2, as stated, fails at both thresholds: the comparisons of the code
    are strict, so the raw values 220 and 941 themselves fall into the
    linear branch and map to 1 and 89. *)
Lemma C2_thresholds_not_clamped :
  CalculateADCValue 220 = 1 /\ CalculateADCValue 220 <> 0 /\
  CalculateADCValue 941 = 89 /\ CalculateADCValue 941 <> 100.
Proof. vm_compute. repeat split; discriminate. Qed.

(** C2 (amended): every raw input strictly below the lower threshold 220
    maps to 0 and every raw input strictly above the upper threshold 941
    maps to 100. *)
Theorem C2_clamping (raw : Z) (Hraw : 0 <= raw < 65536) :
  (raw < 220 -> CalculateADCValue raw = 0) /\
  (941 < raw -> CalculateADCValue raw = 100).
Proof.
  split; intros H.
  - apply CalculateADCValue_below; [exact Hraw | exact H].
  - apply CalculateADCValue_above; [exact Hraw | exact H].
Qed.

Lemma C2_clamping_witness :
  CalculateADCValue 219 = 0 /\ CalculateADCValue 942 = 100.
Proof.
  split.
  - apply (C2_clamping 219); lia.
  - apply (C2_clamping 942); lia.
Defined.

(** C7: between the clamp thresholds (220 <= raw <= 941) the result is
    (raw - 205) * 100 / 818 with the quotient truncated toward zero, and
    the midpoint 614 maps to 50. *)
Theorem C7_linear_map (raw : Z) (Hraw : 220 <= raw <= 941) :
  CalculateADCValue raw = ((raw - 205) * 100) ÷ 818 /\
  CalculateADCValue 614 = 50.
Proof.
  split; [| reflexivity].
  rewrite CalculateADCValue_linear
    by (unfold LOWER_THRESHOLD_VALUE, UPPER_THRESHOLD_VALUE; lia).
  rewrite Z.quot_div_nonneg by lia.
  reflexivity.
Qed.

Lemma C7_linear_map_witness :
  220 <= 500 <= 941 /\
  CalculateADCValue 500 = ((500 - 205) * 100) ÷ 818 /\
  CalculateADCValue 614 = 50.
Proof. split; [lia | apply (C7_linear_map 500); lia]. Defined.

(** The percentage is one of 0, 1..89 or 100 on every [unsigned]. *)
Lemma CalculateADCValue_image (raw : Z) :
  0 <= raw < 65536 ->
  CalculateADCValue raw = 0 \/ 1 <= CalculateADCValue raw <= 89 \/
  CalculateADCValue raw = 100.
Proof.
  intros Hraw.
  destruct (Z_lt_dec raw LOWER_THRESHOLD_VALUE) as [L | L].
  - left. apply CalculateADCValue_below; assumption.
  - destruct (Z_lt_dec UPPER_THRESHOLD_VALUE raw) as [U | U].
    + right; right. apply CalculateADCValue_above; assumption.
    + right; left. apply CalculateADCValue_linear_range; [assumption | lia].
Qed.

(** C8: the mapping is monotonic non-decreasing on 0..1023 (a <= b
    implies [CalculateADCValue a <= CalculateADCValue b]), and equal raw
    inputs give equal percentages. *)
Theorem C8_monotonic_deterministic (a b : Z)
    (Ha : 0 <= a) (Hab : a <= b) (Hb : b <= 1023) :
  CalculateADCValue a <= CalculateADCValue b /\
  (forall c, c = a -> CalculateADCValue c = CalculateADCValue a).
Proof.
  split.
  - assert (Ra : 0 <= a < 65536) by lia.
    assert (Rb : 0 <= b < 65536) by lia.
    destruct (Z_lt_dec UPPER_THRESHOLD_VALUE b) as [Ub | Ub].
    { rewrite (CalculateADCValue_above b Rb Ub).
      destruct (CalculateADCValue_image a Ra) as [E | [E | E]]; lia. }
    destruct (Z_lt_dec a LOWER_THRESHOLD_VALUE) as [La | La].
    { rewrite (CalculateADCValue_below a Ra La).
      destruct (CalculateADCValue_image b Rb) as [E | [E | E]]; lia. }
    rewrite (CalculateADCValue_linear a Ra), (CalculateADCValue_linear b Rb)
      by lia.
    apply Z.div_le_mono; [reflexivity |].
    unfold MIN_ADC_VALUE. lia.
  - intros c E. rewrite E. reflexivity.
Qed.

Lemma C8_monotonic_deterministic_witness :
  CalculateADCValue 300 <= CalculateADCValue 900 /\
  (forall c, c = 300 -> CalculateADCValue c = CalculateADCValue 300).
Proof. apply (C8_monotonic_deterministic 300 900); lia. Defined.

(** C10: on 0..1023 the percentage is at most 89 or exactly 100, never
    in 90..99; the largest input that is not clamped, 941, maps to 89. *)
Theorem C10_no_percentage_in_90_99 (raw : Z)
    (Hlo : 0 <= raw) (Hhi : raw <= 1023) :
  (CalculateADCValue raw <= 89 \/ CalculateADCValue raw = 100) /\
  ~ (90 <= CalculateADCValue raw <= 99) /\
  CalculateADCValue 941 = 89.
Proof.
  assert (I : CalculateADCValue raw = 0 \/ 1 <= CalculateADCValue raw <= 89 \/
              CalculateADCValue raw = 100)
    by (apply CalculateADCValue_image; lia).
  repeat split; [lia | lia].
Qed.

Lemma C10_no_percentage_in_90_99_witness :
  (CalculateADCValue 1000 <= 89 \/ CalculateADCValue 1000 = 100) /\
  ~ (90 <= CalculateADCValue 1000 <= 99) /\
  CalculateADCValue 941 = 89.
Proof. apply (C10_no_percentage_in_90_99 1000); lia. Defined.

(* ================================================================= *)
(** ** Register value mapping: [CalculateRegisterValue] *)

(** The documented formula over the rationals is the nested integer
    quotient of the code, before any wrap-around. *)
Lemma compare_count_formula_eq (d t : Z) :
  0 < d -> compare_count_formula d t = 48 * t / 10 / d - 1.
Proof.
  intros Hd. unfold compare_count_formula. f_equal.
  destruct d as [| p | p]; try lia.
  cbv beta iota delta
    [clock_frequency_hz Qdiv Qinv Qmult inject_Z Qfloor Qnum Qden].
  rewrite !Z.mul_1_r, !Pos.mul_1_l, Pos2Z.inj_mul.
  change 4800000 with (100000 * 48).
  change (Z.pos 1000000) with (100000 * 10).
  rewrite <- !Z.mul_assoc.
  rewrite Z.div_mul_cancel_l by lia.
  rewrite Z.div_div by lia.
  reflexivity.
Qed.

Section RegisterValue.

Variables prescaler time : Z.
Hypothesis prescaler_unsigned : 0 < prescaler < 65536.
Hypothesis time_unsigned : 0 <= time < 65536.

Lemma quotient_bounds : 0 <= 48 * time / 10 / prescaler <= 314572.
Proof.
  assert (H1 : 0 <= 48 * time / 10 <= 314572) by div_lia.
  split.
  - apply Z.div_pos; lia.
  - apply Z.div_le_upper_bound; nia.
Qed.

Lemma CalculateRegisterValue_a_eq :
  CalculateRegisterValue_a prescaler time
  = u32 (compare_count_formula prescaler time).
Proof.
  rewrite compare_count_formula_eq by lia.
  pose proof quotient_bounds as Q.
  assert (H1 : 0 <= 48 * time / 10 <= 314572) by div_lia.
  unfold CalculateRegisterValue_a.
  rewrite (u16_small time), (u16_small prescaler) by lia.
  rewrite (u32_small time), (u32_small prescaler) by lia.
  rewrite (u32_small (48 * time)) by lia.
  rewrite (u32_small (48 * time / 10)) by lia.
  rewrite (u32_small (48 * time / 10 / prescaler)) by lia.
  reflexivity.
Qed.

Lemma CalculateRegisterValue_eq :
  CalculateRegisterValue prescaler time
  = u8 (compare_count_formula prescaler time).
Proof.
  unfold CalculateRegisterValue.
  rewrite CalculateRegisterValue_a_eq. apply u8_of_u32.
Qed.

(** When the formula fits the 8-bit counter neither the 32-bit
    subtraction nor the conversion to [char] loses anything. *)
Lemma CalculateRegisterValue_exact :
  0 <= compare_count_formula prescaler time <= 255 ->
  CalculateRegisterValue_a prescaler time = compare_count_formula prescaler time /\
  CalculateRegisterValue prescaler time = compare_count_formula prescaler time.
Proof.
  intros H. split.
  - rewrite CalculateRegisterValue_a_eq. apply u32_small. lia.
  - rewrite CalculateRegisterValue_eq. apply u8_small. lia.
Qed.

End RegisterValue.

(** C5, as stated, fails when the formula leaves 0..255: for divisor 8
    and 1000 us the formula gives 599 while the function returns the
    low 8 bits, 87. *)
Lemma C5_truncated_at_8_1000 :
  compare_count_formula 8 1000 = 599 /\
  CalculateRegisterValue 8 1000 = 87 /\
  CalculateRegisterValue 8 1000 <> compare_count_formula 8 1000.
Proof. vm_compute. repeat split; discriminate. Qed.

(** C5 (amended): [CalculateRegisterValue divisor duration] is
    floor(4800000 * duration / 1000000 / divisor) - 1 reduced to its low
    8 bits, hence equal to that value whenever it lies in 0..255; in
    particular (8, 250) gives 149 and (64, 1000) gives 74, the two
    constants of [functions.h]. *)
Theorem C5_register_value (divisor duration : Z)
    (Hd : 0 < divisor < 65536) (Ht : 0 <= duration < 65536) :
  CalculateRegisterValue divisor duration
    = compare_count_formula divisor duration mod 256 /\
  (0 <= compare_count_formula divisor duration <= 255 ->
   CalculateRegisterValue divisor duration
     = compare_count_formula divisor duration) /\
  CalculateRegisterValue 8 250 = TRIGGER_PULSE_DURATION_PRESC_8 /\
  compare_count_formula 8 250 = 149 /\
  CalculateRegisterValue 64 ZERO_CROSS_DELAY_US = ZERO_CROSS_DELAY_OCR0A_PRESC_64 /\
  compare_count_formula 64 1000 = 74.
Proof.
  split; [| split; [| repeat split]].
  - apply CalculateRegisterValue_eq; assumption.
  - intros H. apply CalculateRegisterValue_exact; assumption.
Qed.

Lemma C5_register_value_witness :
  CalculateRegisterValue 256 3900 = compare_count_formula 256 3900 mod 256 /\
  (0 <= compare_count_formula 256 3900 <= 255 ->
   CalculateRegisterValue 256 3900 = compare_count_formula 256 3900) /\
  CalculateRegisterValue 8 250 = TRIGGER_PULSE_DURATION_PRESC_8 /\
  compare_count_formula 8 250 = 149 /\
  CalculateRegisterValue 64 ZERO_CROSS_DELAY_US = ZERO_CROSS_DELAY_OCR0A_PRESC_64 /\
  compare_count_formula 64 1000 = 74.
Proof. apply (C5_register_value 256 3900); lia. Defined.

(* ================================================================= *)
(** ** Delay and divisor selection of [SetWaitingPulse] *)

(** The delay is the plain difference as long as it is not negative. *)
Lemma timeDelay_exact (p : Z) :
  0 <= p <= 90 -> timeDelay p = 10000 - (10000 / 100 * p + 1000).
Proof.
  intros H. unfold timeDelay, HALF_PERIOD_DURATION_US, ZERO_CROSS_DELAY_US.
  rewrite (u16_small 10000), (u16_small 1000), (u16_small p) by lia.
  change (10000 / 100) with 100.
  rewrite (u16_small 100) by lia.
  rewrite (u16_small (100 * p)) by lia.
  rewrite (u16_small (100 * p + 1000)) by lia.
  apply u16_small. lia.
Qed.

(** Past 90 % the 16-bit subtraction wraps around. *)
Lemma timeDelay_wrapped (p : Z) :
  90 < p < 100 -> timeDelay p = 74536 - 100 * p.
Proof.
  intros H. unfold timeDelay, HALF_PERIOD_DURATION_US, ZERO_CROSS_DELAY_US.
  rewrite (u16_small 10000), (u16_small 1000), (u16_small p) by lia.
  change (10000 / 100) with 100.
  rewrite (u16_small 100) by lia.
  rewrite (u16_small (100 * p)) by lia.
  rewrite (u16_small (100 * p + 1000)) by lia.
  unfold u16. div_lia.
Qed.

(** The general branch of [SetWaitingPulse] is one call of [SetTimer]
    with the divisor of the threshold chain. *)
Lemma SetWaitingPulse_general (p : Z) :
  0 < p < 100 ->
  SetWaitingPulse p
  = SetTimer (chosen_prescaler (timeDelay p))
      (CalculateRegisterValue (chosen_prescaler (timeDelay p)) (timeDelay p)).
Proof.
  intros H. unfold SetWaitingPulse, chosen_prescaler.
  rewrite (u16_small p) by lia.
  destruct (p =? 100) eqn:E1; [lia |].
  destruct (p =? 0) eqn:E2; [lia |].
  cbv zeta.
  destruct (timeDelay p <? 425); [reflexivity |].
  destruct (timeDelay p <? 3400); reflexivity.
Qed.

(** The thresholds 425 and 3400 keep the formula inside the 8-bit
    counter for every delay from 2 us to 13706 us. *)
Lemma thresholds_keep_in_range (delay : Z) :
  2 <= delay <= 13706 ->
  0 <= compare_count_formula (chosen_prescaler delay) delay <= 255.
Proof.
  intros H. unfold chosen_prescaler.
  destruct (delay <? 425) eqn:E1.
  - rewrite compare_count_formula_eq by lia. div_lia.
  - destruct (delay <? 3400) eqn:E2;
      rewrite compare_count_formula_eq by lia; div_lia.
Qed.

Lemma chosen_prescaler_cases (delay : Z) :
  chosen_prescaler delay = 8 \/ chosen_prescaler delay = 64 \/
  chosen_prescaler delay = 256.
Proof.
  unfold chosen_prescaler.
  destruct (delay <? 425); [auto |]. destruct (delay <? 3400); auto.
Qed.

(* ================================================================= *)
(** ** Footprint of the timer programming *)

Lemma prescaler_switch {A : Type} (z : Z) (a b c d : A) :
  match z with 8 => a | 64 => b | 256 => c | _ => d end
  = if z =? 8 then a else if z =? 64 then b else if z =? 256 then c else d.
Proof.
  destruct z as [| p | p]; try reflexivity.
  do 9 (try (destruct p as [p | p |]; try reflexivity)).
Qed.

Lemma timer_only_ret {A : Type} (a : A) : timer_only (ret a).
Proof. intros s. repeat split. Qed.

Lemma timer_only_bind {A B : Type} (m : M A) (k : A -> M B) :
  timer_only m -> (forall a, timer_only (k a)) -> timer_only (bind m k).
Proof.
  intros Hm Hk s. unfold bind.
  destruct (Hm s) as (R1 & A1 & S1).
  destruct (m s) as [a s1] eqn:E. cbn [snd] in *.
  destruct (Hk a s1) as (R2 & A2 & S2).
  repeat split.
  - intros r Hr. rewrite R2, R1 by exact Hr. reflexivity.
  - congruence.
  - congruence.
Qed.

Lemma timer_only_rd (r : reg) : timer_only (rd r).
Proof. intros s. repeat split. Qed.

Lemma timer_only_wr (r : reg) (v : Z) :
  timer_reg r = true -> timer_only (wr r v).
Proof.
  intros Hr s. repeat split. intros r' Hr'. cbn.
  unfold store. destruct (reg_eqb r r') eqn:E; [| reflexivity].
  destruct r, r'; discriminate.
Qed.

Ltac timer_footprint :=
  repeat first
    [ apply timer_only_bind; [| intros ? ]
    | apply timer_only_rd
    | apply timer_only_ret
    | apply timer_only_wr; reflexivity ].

Lemma timer_only_TIMER_INT_OFF : timer_only TIMER_INT_OFF.
Proof. unfold TIMER_INT_OFF. timer_footprint. Qed.

Lemma timer_only_TIMER_STOP : timer_only TIMER_STOP.
Proof. unfold TIMER_STOP. timer_footprint. Qed.

Lemma timer_only_SetTimer (prescaler OCValue : Z) :
  timer_only (SetTimer prescaler OCValue).
Proof.
  unfold SetTimer.
  apply timer_only_bind; [apply timer_only_TIMER_INT_OFF | intros _].
  apply timer_only_bind; [apply timer_only_TIMER_STOP | intros _].
  apply timer_only_bind; [| intros _; timer_footprint].
  rewrite prescaler_switch.
  destruct (u16 prescaler =? 8); [timer_footprint |].
  destruct (u16 prescaler =? 64); [timer_footprint |].
  destruct (u16 prescaler =? 256); timer_footprint.
Qed.

Lemma timer_only_SetWaitingPulse (percent : Z) :
  timer_only (SetWaitingPulse percent).
Proof.
  unfold SetWaitingPulse.
  destruct (u16 percent =? 100); [apply timer_only_SetTimer |].
  destruct (u16 percent =? 0).
  - apply timer_only_bind;
      [apply timer_only_TIMER_INT_OFF | intros _; apply timer_only_TIMER_STOP].
  - cbv zeta.
    destruct (timeDelay percent <? 425); [apply timer_only_SetTimer |].
    destruct (timeDelay percent <? 3400); apply timer_only_SetTimer.
Qed.

(* ================================================================= *)
(** ** Effect of [SetTimer] on the timer *)

(** Bit-level evaluation of masked register values. *)
Ltac bit_blast :=
  unfold u8;
  repeat first
    [ rewrite Z.mod_pow2_bits_low by lia
    | rewrite Z.lor_spec
    | rewrite Z.land_spec
    | rewrite Z.lnot_spec by lia ].

Ltac clock_select_blast x :=
  unfold clock_select, CS00, CS01, CS02; bit_blast;
  destruct (Z.testbit x 0), (Z.testbit x 1), (Z.testbit x 2); reflexivity.

Lemma clock_select_8 (x : Z) :
  clock_select (u8 (Z.lor (u8 (Z.land x (Z.lnot 7))) 2)) = ClockDiv 8.
Proof. clock_select_blast x. Qed.

Lemma clock_select_64 (x : Z) :
  clock_select (u8 (Z.lor (u8 (Z.land x (Z.lnot 7))) 3)) = ClockDiv 64.
Proof. clock_select_blast x. Qed.

Lemma clock_select_256 (x : Z) :
  clock_select (u8 (Z.lor (u8 (Z.land x (Z.lnot 7))) 4)) = ClockDiv 256.
Proof. clock_select_blast x. Qed.

Lemma clock_select_stopped (x : Z) :
  clock_select (u8 (Z.land x (Z.lnot 7))) = ClockStopped.
Proof. clock_select_blast x. Qed.

(** [SetTimer] with one of the three supported prescalers: the clock
    runs with that divisor, the compare register is [OCValue] counts
    ahead of the counter, the compare interrupt is enabled. *)
Lemma SetTimer_effect (prescaler OCValue : Z) (s : mcu) :
  prescaler = 8 \/ prescaler = 64 \/ prescaler = 256 ->
  timer_clock_of (exec (SetTimer prescaler OCValue) s) = ClockDiv prescaler /\
  regs (exec (SetTimer prescaler OCValue) s) OCR0A
    = u8 (regs s TCNT0 + u8 OCValue) /\
  timer_interrupt_enabled (exec (SetTimer prescaler OCValue) s) = true.
Proof.
  intros [E | [E | E]]; subst prescaler; (split; [| split]).
  - apply (clock_select_8 (regs s TCCR0B)).
  - reflexivity.
  - unfold timer_interrupt_enabled.
    change (regs (exec (SetTimer 8 OCValue) s) TIMSK0)
      with (u8 (Z.lor (u8 (Z.land (regs s TIMSK0) (Z.lnot 4))) 4)).
    unfold OCIE0A. bit_blast. apply orb_true_r.
  - apply (clock_select_64 (regs s TCCR0B)).
  - reflexivity.
  - unfold timer_interrupt_enabled.
    change (regs (exec (SetTimer 64 OCValue) s) TIMSK0)
      with (u8 (Z.lor (u8 (Z.land (regs s TIMSK0) (Z.lnot 4))) 4)).
    unfold OCIE0A. bit_blast. apply orb_true_r.
  - apply (clock_select_256 (regs s TCCR0B)).
  - reflexivity.
  - unfold timer_interrupt_enabled.
    change (regs (exec (SetTimer 256 OCValue) s) TIMSK0)
      with (u8 (Z.lor (u8 (Z.land (regs s TIMSK0) (Z.lnot 4))) 4)).
    unfold OCIE0A. bit_blast. apply orb_true_r.
Qed.

(** Stopping the timer as [SetWaitingPulse] does for 0 %. *)
Lemma timer_disabled_effect (s : mcu) :
  timer_clock_of (exec (TIMER_INT_OFF ;; TIMER_STOP) s) = ClockStopped /\
  timer_interrupt_enabled (exec (TIMER_INT_OFF ;; TIMER_STOP) s) = false.
Proof.
  split.
  - apply (clock_select_stopped (regs s TCCR0B)).
  - unfold timer_interrupt_enabled.
    change (regs (exec (TIMER_INT_OFF ;; TIMER_STOP) s) TIMSK0)
      with (u8 (Z.land (regs s TIMSK0) (Z.lnot 4))).
    unfold OCIE0A. bit_blast. apply andb_false_r.
Qed.

(* ================================================================= *)
(** ** Percentage to timer programming: [SetWaitingPulse] *)

(** C1, as stated, fails from 90 % on.  At 95 % the 16-bit delay wraps
    to 65036 us, divisor 256 is chosen and the 32-bit value 1218 is cut
    to its low 8 bits, 194; at 90 % the delay is 0 and the subtraction
    of 1 wraps to 4294967295. *)
Lemma C1_truncated_at_95 :
  1 <= 95 <= 99 /\
  timeDelay 95 = 65036 /\
  chosen_prescaler (timeDelay 95) = 256 /\
  SetWaitingPulse 95 = SetTimer 256 (CalculateRegisterValue 256 65036) /\
  CalculateRegisterValue_a 256 65036 = 1218 /\
  CalculateRegisterValue 256 65036 = 194 /\
  ~ (0 <= CalculateRegisterValue_a (chosen_prescaler (timeDelay 95))
            (timeDelay 95) <= 255) /\
  CalculateRegisterValue_a (chosen_prescaler (timeDelay 90)) (timeDelay 90)
    = 4294967295.
Proof.
  repeat split; try reflexivity; try lia.
  vm_compute. intros [_ H]. apply H. reflexivity.
Qed.

(** From 1 % to 89 % the value computed for the chosen divisor fits
    the 8-bit counter before it is converted to [char]. *)
Lemma general_branch_in_range (p : Z) :
  1 <= p <= 89 ->
  0 <= CalculateRegisterValue_a (chosen_prescaler (timeDelay p)) (timeDelay p)
    <= 255 /\
  CalculateRegisterValue (chosen_prescaler (timeDelay p)) (timeDelay p)
    = CalculateRegisterValue_a (chosen_prescaler (timeDelay p)) (timeDelay p) /\
  CalculateRegisterValue (chosen_prescaler (timeDelay p)) (timeDelay p)
    = compare_count_formula (chosen_prescaler (timeDelay p)) (timeDelay p).
Proof.
  intros Hp.
  assert (D : timeDelay p = 10000 - (10000 / 100 * p + 1000))
    by (apply timeDelay_exact; lia).
  change (10000 / 100) with 100 in D.
  assert (R : 0 <= compare_count_formula (chosen_prescaler (timeDelay p))
                     (timeDelay p) <= 255)
    by (apply thresholds_keep_in_range; lia).
  assert (P : 0 < chosen_prescaler (timeDelay p) < 65536)
    by (destruct (chosen_prescaler_cases (timeDelay p)) as [E | [E | E]];
        rewrite E; lia).
  assert (T : 0 <= timeDelay p < 65536) by lia.
  destruct (CalculateRegisterValue_exact _ _ P T R) as [Ea Ec].
  split; [rewrite Ea; exact R |].
  split; [rewrite Ea, Ec; reflexivity | exact Ec].
Qed.

(** C1 (amended): for every percentage from 1 to 89 -- the only ones
    besides 0 and 100 that [CalculateADCValue] produces --
    [SetWaitingPulse] programs the timer with the divisor of the
    threshold chain, and the value computed by [CalculateRegisterValue]
    for that divisor and delay lies in 0..255 before the conversion to
    [char], so nothing is truncated. *)
Theorem C1_compare_value_in_range (p : Z) (Hp : 1 <= p <= 89) :
  let delay := timeDelay p in
  let divisor := chosen_prescaler delay in
  SetWaitingPulse p = SetTimer divisor (CalculateRegisterValue divisor delay) /\
  0 <= CalculateRegisterValue_a divisor delay <= 255 /\
  CalculateRegisterValue divisor delay = CalculateRegisterValue_a divisor delay /\
  CalculateRegisterValue divisor delay = compare_count_formula divisor delay.
Proof.
  cbv zeta. split.
  - apply SetWaitingPulse_general. lia.
  - apply general_branch_in_range. exact Hp.
Qed.

Lemma C1_compare_value_in_range_witness :
  SetWaitingPulse 50
    = SetTimer (chosen_prescaler (timeDelay 50))
        (CalculateRegisterValue (chosen_prescaler (timeDelay 50)) (timeDelay 50)) /\
  0 <= CalculateRegisterValue_a (chosen_prescaler (timeDelay 50)) (timeDelay 50)
    <= 255 /\
  CalculateRegisterValue (chosen_prescaler (timeDelay 50)) (timeDelay 50)
    = CalculateRegisterValue_a (chosen_prescaler (timeDelay 50)) (timeDelay 50) /\
  CalculateRegisterValue (chosen_prescaler (timeDelay 50)) (timeDelay 50)
    = compare_count_formula (chosen_prescaler (timeDelay 50)) (timeDelay 50).
Proof. apply (C1_compare_value_in_range 50); lia. Defined.

(** Whatever the latched sample, the zero-cross handler never asks
    [SetWaitingPulse] for a percentage whose compare value would be
    truncated. *)
Corollary setpoint_never_truncated (sample : Z) :
  let p := CalculateADCValue (u16 sample) in
  p = 0 \/ p = 100 \/
  0 <= CalculateRegisterValue_a (chosen_prescaler (timeDelay p)) (timeDelay p)
    <= 255.
Proof.
  cbv zeta.
  destruct (CalculateADCValue_image (u16 sample) (u16_range sample))
    as [E | [E | E]]; [auto | | auto].
  right; right.
  apply (general_branch_in_range (CalculateADCValue (u16 sample)) E).
Qed.

(** C4, as stated, fails at its own example: for 50 % the delay is
    10000 - (100 * 50 + 1000) = 4000 us, not 3900 us.  It also fails
    from 91 % on: at 95 % the difference is -500 us, which is below 425,
    but the 16-bit delay of the code is 65036 us and divisor 256 is
    selected. *)
Lemma C4_delay_at_50_is_4000 :
  10000 - (10000 / 100 * 50 + 1000) = 4000 /\
  timeDelay 50 = 4000 /\
  timeDelay 50 <> 3900 /\
  0 < 95 < 100 /\
  10000 - (10000 / 100 * 95 + 1000) = -500 /\
  timeDelay 95 = 65036 /\
  timeDelay 95 <> 10000 - (10000 / 100 * 95 + 1000) /\
  timer_clock_of
    (exec (SetWaitingPulse 95) (sample_mcu 0 0 0 0 0 WAITING_FOR_TRIGGER))
    = ClockDiv 256 /\
  timer_clock_of
    (exec (SetWaitingPulse 95) (sample_mcu 0 0 0 0 0 WAITING_FOR_TRIGGER))
    <> ClockDiv 8.
Proof.
  vm_compute. repeat split; discriminate.
Qed.

(** C4 (amended): for every percentage p with 0 < p <= 90 the delay is
    10000 - ((10000/100) * p + 1000) us and [SetWaitingPulse] calls
    [SetTimer] with divisor 8 when delay < 425, divisor 64 when
    425 <= delay < 3400 and divisor 256 otherwise; for p = 50 the delay
    is 4000 us and divisor 256 is selected. *)
Theorem C4_delay_and_divisor (p : Z) (Hp : 0 < p <= 90) (s : mcu) :
  let delay := 10000 - (10000 / 100 * p + 1000) in
  timeDelay p = delay /\
  (delay < 425 ->
   SetWaitingPulse p = SetTimer 8 (CalculateRegisterValue 8 delay) /\
   timer_clock_of (exec (SetWaitingPulse p) s) = ClockDiv 8) /\
  (425 <= delay < 3400 ->
   SetWaitingPulse p = SetTimer 64 (CalculateRegisterValue 64 delay) /\
   timer_clock_of (exec (SetWaitingPulse p) s) = ClockDiv 64) /\
  (3400 <= delay ->
   SetWaitingPulse p = SetTimer 256 (CalculateRegisterValue 256 delay) /\
   timer_clock_of (exec (SetWaitingPulse p) s) = ClockDiv 256) /\
  timeDelay 50 = 4000 /\
  SetWaitingPulse 50 = SetTimer 256 (CalculateRegisterValue 256 4000).
Proof.
  cbv zeta.
  assert (D : timeDelay p = 10000 - (10000 / 100 * p + 1000))
    by (apply timeDelay_exact; lia).
  assert (G := SetWaitingPulse_general p ltac:(lia)).
  rewrite D in G. unfold chosen_prescaler in G.
  split; [exact D |].
  split; [| split; [| split; [| split; reflexivity]]]; intros H.
  - destruct (10000 - (10000 / 100 * p + 1000) <? 425) eqn:E1; [| lia].
    split; [exact G |]. rewrite G. apply SetTimer_effect. auto.
  - destruct (10000 - (10000 / 100 * p + 1000) <? 425) eqn:E1; [lia |].
    destruct (10000 - (10000 / 100 * p + 1000) <? 3400) eqn:E2; [| lia].
    split; [exact G |]. rewrite G. apply SetTimer_effect. auto.
  - destruct (10000 - (10000 / 100 * p + 1000) <? 425) eqn:E1; [lia |].
    destruct (10000 - (10000 / 100 * p + 1000) <? 3400) eqn:E2; [lia |].
    split; [exact G |]. rewrite G. apply SetTimer_effect. auto.
Qed.

Lemma C4_delay_and_divisor_witness :
  timeDelay 70 = 2000 /\
  SetWaitingPulse 70 = SetTimer 64 (CalculateRegisterValue 64 2000) /\
  timer_clock_of
    (exec (SetWaitingPulse 70) (sample_mcu 0 0 0 0 0 WAITING_FOR_TRIGGER))
    = ClockDiv 64.
Proof.
  pose proof (C4_delay_and_divisor 70 ltac:(lia)
                (sample_mcu 0 0 0 0 0 WAITING_FOR_TRIGGER)) as H.
  cbv zeta in H. destruct H as (D & _ & H64 & _).
  split; [exact D |]. apply H64. simpl. lia.
Defined.

(* ================================================================= *)
(** ** The interrupt handlers *)

Lemma exec_seq (m k : M unit) (s : mcu) :
  exec (m ;; k) s = exec k (exec m s).
Proof. unfold exec, bind. destruct (m s) as [[] s1]. reflexivity. Qed.

Lemma output_after_off (x : Z) :
  Z.testbit (u8 (Z.land x (Z.lnot (Z.shiftl 1 PB0)))) PB0 = false.
Proof. unfold PB0. bit_blast. apply andb_false_r. Qed.

Lemma output_after_on (x : Z) :
  Z.testbit (u8 (Z.lor x (Z.shiftl 1 PB0))) PB0 = true.
Proof. unfold PB0. bit_blast. apply orb_true_r. Qed.

(** The handler of the conversion-complete interrupt, in closed form. *)
Lemma ADC_vect_closed_form (s : mcu) :
  exec ADC_vect s
  = mkMcu (regs s) (io_log s ++ [IoRead ADCL; IoRead ADCH])
      (s16 (Z.shiftl (regs s ADCH) 8 + regs s ADCL)) (state s).
Proof.
  unfold exec, ADC_vect, bind, rd, set_ADCResult. cbn.
  rewrite <- app_assoc. reflexivity.
Qed.

Lemma exec_get_ADCResult (k : Z -> M unit) (s : mcu) :
  exec (r <- get_ADCResult ;; k r) s = exec (k (ADCResult s)) s.
Proof. reflexivity. Qed.

Lemma exec_get_state (k : controller_states -> M unit) (s : mcu) :
  exec (st <- get_state ;; k st) s = exec (k (state s)) s.
Proof. reflexivity. Qed.

(** The zero-cross handler as the sequence of its four statements. *)
Lemma INT0_vect_steps (s : mcu) :
  exec INT0_vect s
  = exec ADCStart
      (exec (set_state WAITING_FOR_TRIGGER)
         (exec (SetWaitingPulse (CalculateADCValue (u16 (ADCResult s))))
            (exec OPTOTRIAC_OFF s))).
Proof.
  unfold INT0_vect.
  rewrite exec_seq, exec_get_ADCResult, !exec_seq.
  reflexivity.
Qed.

Lemma INT0_vect_effect (s : mcu) :
  output_asserted (exec INT0_vect s) = false /\
  state (exec INT0_vect s) = WAITING_FOR_TRIGGER.
Proof.
  rewrite INT0_vect_steps.
  set (p := CalculateADCValue (u16 (ADCResult s))).
  split; [| reflexivity].
  unfold output_asserted.
  change (regs (exec ADCStart
                  (exec (set_state WAITING_FOR_TRIGGER)
                     (exec (SetWaitingPulse p) (exec OPTOTRIAC_OFF s)))) PORTB)
    with (regs (exec (SetWaitingPulse p) (exec OPTOTRIAC_OFF s)) PORTB).
  destruct (timer_only_SetWaitingPulse p (exec OPTOTRIAC_OFF s)) as (R & _ & _).
  unfold exec at 1. rewrite (R PORTB) by reflexivity.
  apply (output_after_off (regs s PORTB)).
Qed.

(** C3: a timer expiry in [WAITING_FOR_TRIGGER] asserts the output,
    moves to [SWITCHING] and re-arms the timer with divisor 8 and the
    pulse-width count 149; a timer expiry in [SWITCHING] de-asserts the
    output, stays in [SWITCHING] and leaves the timer as it is; a
    zero-cross event de-asserts the output and resets the state to
    [WAITING_FOR_TRIGGER] whatever the state was. *)
Theorem C3_controller_machine (s : mcu) :
  (state s = WAITING_FOR_TRIGGER ->
   exec TIM0_COMPA_vect s
     = exec (OPTOTRIAC_ON ;; set_state SWITCHING ;;
             SetTimer 8 TRIGGER_PULSE_DURATION_PRESC_8) s /\
   output_asserted (exec TIM0_COMPA_vect s) = true /\
   state (exec TIM0_COMPA_vect s) = SWITCHING /\
   timer_clock_of (exec TIM0_COMPA_vect s) = ClockDiv 8 /\
   regs (exec TIM0_COMPA_vect s) OCR0A = u8 (regs s TCNT0 + 149) /\
   timer_interrupt_enabled (exec TIM0_COMPA_vect s) = true) /\
  (state s = SWITCHING ->
   output_asserted (exec TIM0_COMPA_vect s) = false /\
   state (exec TIM0_COMPA_vect s) = SWITCHING /\
   forall r, r <> PORTB -> regs (exec TIM0_COMPA_vect s) r = regs s r) /\
  (output_asserted (exec INT0_vect s) = false /\
   state (exec INT0_vect s) = WAITING_FOR_TRIGGER).
Proof.
  split; [| split; [| apply INT0_vect_effect]]; intros St.
  - assert (E : exec TIM0_COMPA_vect s
                = exec (SetTimer 8 149)
                    (exec (set_state SWITCHING) (exec OPTOTRIAC_ON s))).
    { unfold TIM0_COMPA_vect. rewrite exec_get_state, St, !exec_seq.
      reflexivity. }
    split.
    { rewrite E, !exec_seq. reflexivity. }
    rewrite E.
    set (s1 := exec (set_state SWITCHING) (exec OPTOTRIAC_ON s)).
    destruct (timer_only_SetTimer 8 149 s1) as (R & _ & S1).
    destruct (SetTimer_effect 8 149 s1 ltac:(auto)) as (C & O & I).
    split; [| split; [| split; [| split]]].
    + unfold output_asserted, exec at 1. rewrite (R PORTB) by reflexivity.
      apply (output_after_on (regs s PORTB)).
    + unfold exec at 1. rewrite S1. reflexivity.
    + exact C.
    + rewrite O. reflexivity.
    + exact I.
  - assert (E : exec TIM0_COMPA_vect s = exec OPTOTRIAC_OFF s).
    { unfold TIM0_COMPA_vect. rewrite exec_get_state, St. reflexivity. }
    rewrite E. split; [| split].
    + apply (output_after_off (regs s PORTB)).
    + exact St.
    + intros r Hr. destruct r; try reflexivity. contradiction Hr. reflexivity.
Qed.

Lemma C3_controller_machine_witness :
  let s0 := sample_mcu 0 0 200 0 0 WAITING_FOR_TRIGGER in
  let s1 := exec TIM0_COMPA_vect s0 in
  (output_asserted s1 = true /\ state s1 = SWITCHING /\
   timer_clock_of s1 = ClockDiv 8 /\ regs s1 OCR0A = 93) /\
  (output_asserted (exec TIM0_COMPA_vect s1) = false /\
   state (exec TIM0_COMPA_vect s1) = SWITCHING) /\
  (output_asserted (exec INT0_vect s1) = false /\
   state (exec INT0_vect s1) = WAITING_FOR_TRIGGER).
Proof.
  cbv zeta.
  pose proof (C3_controller_machine
                (sample_mcu 0 0 200 0 0 WAITING_FOR_TRIGGER)) as (W & _ & _).
  destruct (W eq_refl) as (_ & O & St & C & R & _).
  pose proof (C3_controller_machine
                (exec TIM0_COMPA_vect
                   (sample_mcu 0 0 200 0 0 WAITING_FOR_TRIGGER)))
    as (_ & Sw & Oz & Sz).
  destruct (Sw St) as (O' & St' & _).
  split; [| split].
  - split; [exact O |]. split; [exact St |]. split; [exact C |].
    rewrite R. reflexivity.
  - split; [exact O' | exact St'].
  - split; [exact Oz | exact Sz].
Defined.

(* ================================================================= *)
(** ** A half-cycle with the timer disabled *)

Lemma half_cycle_step_keeps_off (s s' : mcu) :
  half_cycle_step s s' ->
  timer_interrupt_enabled s = false -> output_asserted s = false ->
  timer_interrupt_enabled s' = false /\ output_asserted s' = false.
Proof.
  intros Hstep Hi Ho. destruct Hstep as [s s' P | s | s En].
  - destruct P as (Pb & _ & Tm & _).
    unfold timer_interrupt_enabled, output_asserted in *.
    rewrite Pb, Tm. split; assumption.
  - change (handler AdcComplete) with ADC_vect.
    rewrite ADC_vect_closed_form. split; assumption.
  - unfold enabled in En. congruence.
Qed.

Lemma half_cycle_run_keeps_off (s s' : mcu) :
  half_cycle_run s s' ->
  timer_interrupt_enabled s = false -> output_asserted s = false ->
  timer_interrupt_enabled s' = false /\ output_asserted s' = false.
Proof.
  intros Hrun. induction Hrun as [s | s1 s2 s3 Hstep _ IH]; intros Hi Ho.
  - split; assumption.
  - destruct (half_cycle_step_keeps_off s1 s2 Hstep Hi Ho) as [Hi2 Ho2].
    apply IH; assumption.
Qed.

(** A zero-cross handler run on a sample that maps to 0 % leaves the
    output de-asserted and the compare interrupt masked. *)
Lemma INT0_vect_always_off (s : mcu) :
  CalculateADCValue (u16 (ADCResult s)) = 0 ->
  timer_interrupt_enabled (exec INT0_vect s) = false /\
  output_asserted (exec INT0_vect s) = false.
Proof.
  intros Hp. split; [| apply INT0_vect_effect].
  rewrite INT0_vect_steps, Hp.
  change (SetWaitingPulse 0) with (TIMER_INT_OFF ;; TIMER_STOP).
  apply (timer_disabled_effect (exec OPTOTRIAC_OFF s)).
Qed.

(** C6: [SetWaitingPulse 100] does not use the delay formula: it
    programs the timer with divisor 64 and the precomputed count 74 of
    the 1000 us zero-cross compensation.  [SetWaitingPulse 0] disables
    the compare interrupt and stops the timer clock, so that the output,
    de-asserted at the zero crossing, stays de-asserted for the rest of
    the half-cycle, whatever the peripherals and the conversion-complete
    handler do. *)
Theorem C6_special_percentages (s s' : mcu) :
  (SetWaitingPulse 100 = SetTimer 64 ZERO_CROSS_DELAY_OCR0A_PRESC_64 /\
   ZERO_CROSS_DELAY_OCR0A_PRESC_64
     = CalculateRegisterValue 64 ZERO_CROSS_DELAY_US /\
   chosen_prescaler (timeDelay 100) = 256 /\
   timer_clock_of (exec (SetWaitingPulse 100) s) = ClockDiv 64 /\
   regs (exec (SetWaitingPulse 100) s) OCR0A = u8 (regs s TCNT0 + 74) /\
   timer_interrupt_enabled (exec (SetWaitingPulse 100) s) = true) /\
  (SetWaitingPulse 0 = (TIMER_INT_OFF ;; TIMER_STOP) /\
   timer_interrupt_enabled (exec (SetWaitingPulse 0) s) = false /\
   timer_clock_of (exec (SetWaitingPulse 0) s) = ClockStopped /\
   output_asserted (exec (SetWaitingPulse 0) s) = output_asserted s) /\
  (output_asserted s = false ->
   half_cycle_run (exec (SetWaitingPulse 0) s) s' ->
   output_asserted s' = false) /\
  (CalculateADCValue (u16 (ADCResult s)) = 0 ->
   half_cycle_run (exec INT0_vect s) s' ->
   output_asserted s' = false).
Proof.
  assert (E100 : SetWaitingPulse 100 = SetTimer 64 74) by reflexivity.
  assert (E0 : SetWaitingPulse 0 = (TIMER_INT_OFF ;; TIMER_STOP)) by reflexivity.
  destruct (SetTimer_effect 64 74 s ltac:(auto)) as (C & O & I).
  destruct (timer_disabled_effect s) as (C0 & I0).
  split; [| split; [| split]].
  - rewrite E100. repeat split; assumption.
  - rewrite E0. repeat split; assumption.
  - intros Ho Hrun.
    apply (half_cycle_run_keeps_off (exec (SetWaitingPulse 0) s) s' Hrun).
    + rewrite E0. exact I0.
    + exact Ho.
  - intros Hp Hrun.
    destruct (INT0_vect_always_off s Hp) as [Hi Ho].
    apply (half_cycle_run_keeps_off (exec INT0_vect s) s' Hrun Hi Ho).
Qed.

Lemma C6_special_percentages_witness :
  let s := sample_mcu 0 4 17 0 2 WAITING_FOR_TRIGGER in
  timer_clock_of (exec (SetWaitingPulse 100) s) = ClockDiv 64 /\
  regs (exec (SetWaitingPulse 100) s) OCR0A = 91 /\
  timer_interrupt_enabled s = true /\
  timer_interrupt_enabled (exec (SetWaitingPulse 0) s) = false /\
  output_asserted (exec ADC_vect (exec (SetWaitingPulse 0) s)) = false.
Proof.
  cbv zeta.
  pose proof (C6_special_percentages
                (sample_mcu 0 4 17 0 2 WAITING_FOR_TRIGGER)
                (exec ADC_vect
                   (exec (SetWaitingPulse 0)
                      (sample_mcu 0 4 17 0 2 WAITING_FOR_TRIGGER))))
    as ((_ & _ & _ & C & O & _) & (_ & I0 & _) & Run & _).
  split; [exact C |]. split; [rewrite O; reflexivity |].
  split; [reflexivity |]. split; [exact I0 |].
  apply Run; [reflexivity |].
  eapply hc_step; [apply hc_adc | apply hc_refl].
Defined.

(** C9: the conversion-complete handler reads ADCL and then ADCH, and
    nothing else; it stores [(ADCH << 8) + ADCL] into [ADCResult] -- for
    a 10-bit right-adjusted result this is the sample 0..1023 -- and it
    changes neither the controller state nor any register, so the timer
    configuration and the output line stay as they were. *)
Theorem C9_adc_handler_frame (s : mcu) :
  io_log (exec ADC_vect s) = io_log s ++ [IoRead ADCL; IoRead ADCH] /\
  ADCResult (exec ADC_vect s) = s16 (Z.shiftl (regs s ADCH) 8 + regs s ADCL) /\
  (0 <= regs s ADCL < 256 -> 0 <= regs s ADCH < 4 ->
   ADCResult (exec ADC_vect s) = regs s ADCH * 256 + regs s ADCL /\
   0 <= ADCResult (exec ADC_vect s) <= 1023) /\
  state (exec ADC_vect s) = state s /\
  (forall r, regs (exec ADC_vect s) r = regs s r) /\
  timer_clock_of (exec ADC_vect s) = timer_clock_of s /\
  timer_interrupt_enabled (exec ADC_vect s) = timer_interrupt_enabled s /\
  output_asserted (exec ADC_vect s) = output_asserted s.
Proof.
  rewrite ADC_vect_closed_form. cbn [io_log ADCResult state regs].
  split; [reflexivity |]. split; [reflexivity |].
  split; [| repeat split].
  intros Hl Hh. rewrite Z.shiftl_mul_pow2 by lia.
  change (2 ^ 8) with 256.
  rewrite s16_small by lia. lia.
Qed.

Lemma C9_adc_handler_frame_witness :
  let s := sample_mcu 1 4 17 88 2 SWITCHING in
  io_log (exec ADC_vect s) = [IoRead ADCL; IoRead ADCH] /\
  ADCResult (exec ADC_vect s) = 600 /\
  state (exec ADC_vect s) = SWITCHING /\
  output_asserted (exec ADC_vect s) = true.
Proof.
  cbv zeta.
  pose proof (C9_adc_handler_frame (sample_mcu 1 4 17 88 2 SWITCHING))
    as (L & _ & V & St & _ & _ & _ & O).
  split; [exact L |].
  split; [apply V; simpl; lia |].
  split; [exact St | exact O].
Defined.

(* ================================================================= *)
(** * Further properties of the conversions *)

(** ** The image of the percentage mapping *)

(** On every [unsigned] input, also beyond the 10-bit range of the
    converter, the percentage is at most 100; it is 0 exactly below the
    lower threshold and 100 exactly above the upper threshold. *)
Theorem percentage_extremes (raw : Z) (Hraw : 0 <= raw < 65536) :
  0 <= CalculateADCValue raw <= 100 /\
  (CalculateADCValue raw = 0 <-> raw < LOWER_THRESHOLD_VALUE) /\
  (CalculateADCValue raw = 100 <-> UPPER_THRESHOLD_VALUE < raw).
Proof.
  destruct (Z_lt_dec raw LOWER_THRESHOLD_VALUE) as [L | L].
  - pose proof (CalculateADCValue_below raw Hraw L) as E.
    unfold LOWER_THRESHOLD_VALUE, UPPER_THRESHOLD_VALUE in *.
    rewrite E. repeat split; intros; lia.
  - destruct (Z_lt_dec UPPER_THRESHOLD_VALUE raw) as [U | U].
    + pose proof (CalculateADCValue_above raw Hraw U) as E.
      unfold LOWER_THRESHOLD_VALUE, UPPER_THRESHOLD_VALUE in *.
      rewrite E. repeat split; intros; lia.
    + assert (R : 1 <= CalculateADCValue raw <= 89)
        by (apply CalculateADCValue_linear_range; [exact Hraw | lia]).
      unfold LOWER_THRESHOLD_VALUE, UPPER_THRESHOLD_VALUE in *.
      repeat split; intros; lia.
Qed.

Lemma percentage_extremes_witness :
  0 <= CalculateADCValue 40000 <= 100 /\
  (CalculateADCValue 40000 = 0 <-> 40000 < LOWER_THRESHOLD_VALUE) /\
  (CalculateADCValue 40000 = 100 <-> UPPER_THRESHOLD_VALUE < 40000).
Proof. apply (percentage_extremes 40000). lia. Defined.

(** Every percentage from 1 to 89 is the image of a raw value between
    the two thresholds: the mapping skips no power level below 90. *)
Theorem every_percentage_reachable (p : Z) (Hp : 1 <= p <= 89) :
  exists raw,
    LOWER_THRESHOLD_VALUE <= raw <= UPPER_THRESHOLD_VALUE /\
    CalculateADCValue raw = p.
Proof.
  exists (Z.max 220 (205 + (818 * p + 99) / 100)).
  assert (B : 220 <= Z.max 220 (205 + (818 * p + 99) / 100) <= 941)
    by (apply Z.max_case_strong; intros; div_lia).
  split; [exact B |].
  rewrite CalculateADCValue_linear
    by (unfold LOWER_THRESHOLD_VALUE, UPPER_THRESHOLD_VALUE; lia).
  unfold ADC_RANGE_VALUE, MAX_ADC_VALUE, MIN_ADC_VALUE.
  apply Z.max_case_strong; intros; div_lia.
Qed.

Lemma every_percentage_reachable_witness :
  exists raw,
    LOWER_THRESHOLD_VALUE <= raw <= UPPER_THRESHOLD_VALUE /\
    CalculateADCValue raw = 37.
Proof. apply (every_percentage_reachable 37). lia. Defined.

(** ** Range and accuracy of the register value mapping *)

Lemma register_value_in_range_iff (d t : Z) :
  0 < d < 65536 -> 0 <= t < 65536 ->
  (0 <= CalculateRegisterValue_a d t <= 255 <->
   d <= 48 * t / 10 < 257 * d).
Proof.
  intros Hd Ht.
  rewrite (CalculateRegisterValue_a_eq d t Hd Ht).
  rewrite (compare_count_formula_eq d t) by lia.
  pose proof (quotient_bounds d t Hd Ht) as Q.
  assert (M : 0 <= 48 * t / 10) by div_lia.
  assert (E : 48 * t / 10 = d * (48 * t / 10 / d) + (48 * t / 10) mod d)
    by (apply Z.div_mod; lia).
  pose proof (Z.mod_pos_bound (48 * t / 10) d ltac:(lia)) as R.
  destruct (Z.eq_dec (48 * t / 10 / d) 0) as [Z0 | Z0].
  - rewrite Z0. change (u32 (0 - 1)) with 4294967295. nia.
  - rewrite u32_small by lia. nia.
Qed.

(** The compare value fits the 8-bit counter exactly for durations of
    2..428 us with prescaler 8, 14..3426 us with prescaler 64 and
    54..13706 us with prescaler 256; the maximum times named in
    [TimerInit] and [SetTimer] (425 us, 3.4 ms, 13.6 ms) lie inside. *)
Theorem measurable_durations (t : Z) (Ht : 0 <= t < 65536) :
  (0 <= CalculateRegisterValue_a 8 t <= 255 <-> 2 <= t <= 428) /\
  (0 <= CalculateRegisterValue_a 64 t <= 255 <-> 14 <= t <= 3426) /\
  (0 <= CalculateRegisterValue_a 256 t <= 255 <-> 54 <= t <= 13706).
Proof.
  split; [| split];
    rewrite register_value_in_range_iff by lia;
    split; intros H; div_lia.
Qed.

Lemma measurable_durations_witness :
  (0 <= CalculateRegisterValue_a 8 425 <= 255 <-> 2 <= 425 <= 428) /\
  (0 <= CalculateRegisterValue_a 64 425 <= 255 <-> 14 <= 425 <= 3426) /\
  (0 <= CalculateRegisterValue_a 256 425 <= 255 <-> 54 <= 425 <= 13706).
Proof. apply (measurable_durations 425). lia. Defined.

(** A duration too short for the prescaler (less than one timer tick)
    does not give the shortest count but the longest one: the
    subtraction of 1 wraps and the function returns 255. *)
Theorem too_short_duration_gives_255 (d t : Z)
    (Hd : 0 < d < 65536) (Ht : 0 <= t < 65536) (Hshort : 48 * t / 10 < d) :
  CalculateRegisterValue_a d t = 4294967295 /\
  CalculateRegisterValue d t = 255.
Proof.
  assert (Q : 48 * t / 10 / d = 0)
    by (apply Z.div_small; split; [div_lia | exact Hshort]).
  assert (A : CalculateRegisterValue_a d t = 4294967295).
  { rewrite (CalculateRegisterValue_a_eq d t Hd Ht).
    rewrite (compare_count_formula_eq d t) by lia.
    rewrite Q. reflexivity. }
  split; [exact A |].
  unfold CalculateRegisterValue. rewrite A. reflexivity.
Qed.

Lemma too_short_duration_gives_255_witness :
  CalculateRegisterValue_a 64 13 = 4294967295 /\
  CalculateRegisterValue 64 13 = 255.
Proof.
  apply (too_short_duration_gives_255 64 13); [lia | lia |].
  vm_compute. reflexivity.
Defined.

(** When the compare value fits the counter, the time it stands for,
    [(count + 1) * prescaler] clock cycles at 4.8 cycles per
    microsecond, never exceeds the requested duration and falls short
    of it by less than one timer tick. *)
Theorem register_value_accuracy (d t : Z)
    (Hd : 0 < d < 65536) (Ht : 0 <= t < 65536)
    (Hfit : 0 <= CalculateRegisterValue_a d t <= 255) :
  10 * timer_cycles d (CalculateRegisterValue d t) <= 48 * t /\
  48 * t < 10 * (timer_cycles d (CalculateRegisterValue d t) + d).
Proof.
  assert (F : 0 <= compare_count_formula d t <= 255).
  { apply register_value_in_range_iff in Hfit; [| exact Hd | exact Ht].
    rewrite compare_count_formula_eq by lia.
    assert (1 <= 48 * t / 10 / d) by (apply Z.div_le_lower_bound; lia).
    assert (48 * t / 10 / d < 257) by (apply Z.div_lt_upper_bound; lia).
    lia. }
  destruct (CalculateRegisterValue_exact d t Hd Ht F) as [_ E].
  rewrite E, compare_count_formula_eq by lia.
  unfold timer_cycles.
  replace (48 * t / 10 / d - 1 + 1) with (48 * t / 10 / d) by lia.
  assert (E1 : 48 * t / 10 = d * (48 * t / 10 / d) + (48 * t / 10) mod d)
    by (apply Z.div_mod; lia).
  pose proof (Z.mod_pos_bound (48 * t / 10) d ltac:(lia)) as R.
  assert (E2 : 10 * (48 * t / 10) <= 48 * t < 10 * (48 * t / 10) + 10)
    by div_lia.
  nia.
Qed.

Lemma register_value_accuracy_witness :
  10 * timer_cycles 64 (CalculateRegisterValue 64 2000) <= 48 * 2000 /\
  48 * 2000 < 10 * (timer_cycles 64 (CalculateRegisterValue 64 2000) + 64).
Proof.
  apply (register_value_accuracy 64 2000); [lia | lia |].
  vm_compute. split; discriminate.
Defined.

(** ** More power never fires later *)

Lemma programmed_cycles_eq (p : Z) :
  1 <= p <= 89 ->
  programmed_cycles p
  = 480 * (90 - p) / chosen_prescaler (480 * (90 - p) * 10 / 48)
    * chosen_prescaler (480 * (90 - p) * 10 / 48).
Proof.
  intros Hp. unfold programmed_cycles, timer_cycles.
  destruct (general_branch_in_range p Hp) as (_ & _ & E).
  rewrite E.
  assert (D : timeDelay p = 10000 - (10000 / 100 * p + 1000))
    by (apply timeDelay_exact; lia).
  change (10000 / 100) with 100 in D.
  assert (T : 480 * (90 - p) * 10 / 48 = timeDelay p) by (rewrite D; div_lia).
  rewrite T.
  rewrite compare_count_formula_eq
    by (destruct (chosen_prescaler_cases (timeDelay p)) as [C | [C | C]];
        rewrite C; lia).
  assert (M : 48 * timeDelay p / 10 = 480 * (90 - p)) by (rewrite D; div_lia).
  rewrite M. f_equal. lia.
Qed.

(** Between 1 % and 89 % a higher percentage always programs a
    strictly shorter delay, also across the changes of prescaler, and
    the programmed delay is never longer than the computed one. *)
Theorem higher_percentage_fires_earlier (p q : Z)
    (Hp : 1 <= p) (Hpq : p < q) (Hq : q <= 89) :
  programmed_cycles q < programmed_cycles p /\
  10 * programmed_cycles p <= 48 * timeDelay p.
Proof.
  rewrite (programmed_cycles_eq p), (programmed_cycles_eq q) by lia.
  assert (D : timeDelay p = 10000 - (10000 / 100 * p + 1000))
    by (apply timeDelay_exact; lia).
  change (10000 / 100) with 100 in D. rewrite D.
  set (dp := chosen_prescaler (480 * (90 - p) * 10 / 48)).
  set (dq := chosen_prescaler (480 * (90 - q) * 10 / 48)).
  assert (Bp : 0 < dp <= 256)
    by (subst dp; destruct (chosen_prescaler_cases (480 * (90 - p) * 10 / 48))
          as [C | [C | C]]; rewrite C; lia).
  assert (Bq : 0 < dq <= 256)
    by (subst dq; destruct (chosen_prescaler_cases (480 * (90 - q) * 10 / 48))
          as [C | [C | C]]; rewrite C; lia).
  assert (Ep : 480 * (90 - p) = dp * (480 * (90 - p) / dp) + (480 * (90 - p)) mod dp)
    by (apply Z.div_mod; lia).
  assert (Eq : 480 * (90 - q) = dq * (480 * (90 - q) / dq) + (480 * (90 - q)) mod dq)
    by (apply Z.div_mod; lia).
  pose proof (Z.mod_pos_bound (480 * (90 - p)) dp ltac:(lia)) as Rp.
  pose proof (Z.mod_pos_bound (480 * (90 - q)) dq ltac:(lia)) as Rq.
  split; nia.
Qed.

Lemma higher_percentage_fires_earlier_witness :
  programmed_cycles 86 < programmed_cycles 85 /\
  10 * programmed_cycles 85 <= 48 * timeDelay 85.
Proof. apply (higher_percentage_fires_earlier 85 86); lia. Defined.

(* ================================================================= *)
(** * Further properties of the timer programming *)

Lemma testbit_u8 (x n : Z) :
  0 <= n -> Z.testbit (u8 x) n = (n <? 8) && Z.testbit x n.
Proof.
  intros Hn. unfold u8. destruct (n <? 8) eqn:E.
  - apply Z.mod_pow2_bits_low. lia.
  - apply Z.mod_pow2_bits_high. lia.
Qed.

(** The register file after [SetTimer], whatever the prescaler. *)
Lemma SetTimer_regs (d v : Z) (s : mcu) (r : reg) :
  regs (exec (SetTimer d v) s) r
  = after_SetTimer (clock_select_code d) v (regs s) r.
Proof.
  unfold SetTimer, clock_select_code. rewrite prescaler_switch.
  destruct (u16 d =? 8); [destruct r; reflexivity |].
  destruct (u16 d =? 64); [destruct r; reflexivity |].
  destruct (u16 d =? 256); destruct r; reflexivity.
Qed.

Lemma clock_select_code_cases (d : Z) :
  clock_select_code d = Some 2 \/ clock_select_code d = Some 3 \/
  clock_select_code d = Some 4 \/ clock_select_code d = None.
Proof.
  unfold clock_select_code.
  destruct (u16 d =? 8); [auto |].
  destruct (u16 d =? 64); [auto |].
  destruct (u16 d =? 256); auto.
Qed.

(** Replaces the bits of variables by booleans and tries all values. *)
Ltac abstract_bits :=
  repeat match goal with
         | |- context [Z.testbit ?x ?k] =>
             is_var x; generalize (Z.testbit x k)
         end;
  intros;
  repeat match goal with b : bool |- _ => destruct b end;
  reflexivity.

Ltac push_testbit Hn :=
  repeat first
    [ rewrite testbit_u8 by exact Hn
    | rewrite Z.lor_spec
    | rewrite Z.land_spec
    | rewrite Z.lnot_spec by exact Hn ].

Ltac each_bit n :=
  let Hc := fresh "Hc" in
  assert (Hc : n = 0 \/ n = 1 \/ n = 2 \/ n = 3 \/
               n = 4 \/ n = 5 \/ n = 6 \/ n = 7) by lia;
  destruct Hc as [? | [? | [? | [? | [? | [? | [? | ?]]]]]]]; subst n.

(** Equality of two 8-bit register values, bit by bit. *)
Ltac byte_eq :=
  let n := fresh "n" in
  let Hn := fresh "Hn" in
  let E8 := fresh "E8" in
  apply Z.bits_inj'; intros n Hn;
  push_testbit Hn;
  destruct (n <? 8) eqn:E8; [| reflexivity];
  each_bit n; abstract_bits.

Lemma after_SetTimer_overrides (c1 c2 : option Z) (v1 v2 : Z)
    (f : reg -> Z) (r : reg) :
  c1 = Some 2 \/ c1 = Some 3 \/ c1 = Some 4 \/ c1 = None ->
  after_SetTimer c2 v2 (after_SetTimer c1 v1 f) r = after_SetTimer c2 v2 f r.
Proof.
  intros H1.
  destruct r; try reflexivity; cbn [after_SetTimer].
  - generalize (f TCCR0B); intros x.
    destruct c2 as [k |];
      destruct H1 as [E | [E | [E | E]]]; subst c1; byte_eq.
  - generalize (f TIMSK0); intros x. byte_eq.
  - generalize (f TIFR0); intros x. byte_eq.
Qed.

(** Re-arming overrides: a call of [SetTimer] leaves the registers, the
    sample and the controller state exactly as if no earlier call of
    [SetTimer] had been made, whatever the two prescalers and counts. *)
Theorem SetTimer_overrides (d1 v1 d2 v2 : Z) (s : mcu) :
  (forall r,
     regs (exec (SetTimer d2 v2) (exec (SetTimer d1 v1) s)) r
     = regs (exec (SetTimer d2 v2) s) r) /\
  ADCResult (exec (SetTimer d2 v2) (exec (SetTimer d1 v1) s))
    = ADCResult (exec (SetTimer d2 v2) s) /\
  state (exec (SetTimer d2 v2) (exec (SetTimer d1 v1) s))
    = state (exec (SetTimer d2 v2) s).
Proof.
  split; [| split].
  - intros r. rewrite !SetTimer_regs.
    assert (X : forall f g : reg -> Z,
               (forall r', f r' = g r') ->
               after_SetTimer (clock_select_code d2) v2 f r
               = after_SetTimer (clock_select_code d2) v2 g r).
    { intros f g Hfg. destruct r; cbn [after_SetTimer];
        rewrite ?Hfg; reflexivity. }
    rewrite (X _ _ (SetTimer_regs d1 v1 s)).
    apply after_SetTimer_overrides. apply clock_select_code_cases.
  - destruct (timer_only_SetTimer d2 v2 (exec (SetTimer d1 v1) s)) as (_ & A2 & _).
    destruct (timer_only_SetTimer d1 v1 s) as (_ & A1 & _).
    destruct (timer_only_SetTimer d2 v2 s) as (_ & A0 & _).
    unfold exec in *. congruence.
  - destruct (timer_only_SetTimer d2 v2 (exec (SetTimer d1 v1) s)) as (_ & _ & S2).
    destruct (timer_only_SetTimer d1 v1 s) as (_ & _ & S1).
    destruct (timer_only_SetTimer d2 v2 s) as (_ & _ & S0).
    unfold exec in *. congruence.
Qed.

(** A prescaler other than 8, 64 and 256 matches no [case]: the clock
    stays stopped although the compare register is written and the
    compare interrupt is enabled, so the timer never expires. *)
Theorem SetTimer_unsupported_prescaler (d v : Z) (s : mcu)
    (H8 : u16 d <> 8) (H64 : u16 d <> 64) (H256 : u16 d <> 256) :
  timer_clock_of (exec (SetTimer d v) s) = ClockStopped /\
  timer_interrupt_enabled (exec (SetTimer d v) s) = true /\
  regs (exec (SetTimer d v) s) OCR0A = u8 (regs s TCNT0 + u8 v).
Proof.
  assert (C : clock_select_code d = None).
  { unfold clock_select_code.
    destruct (u16 d =? 8) eqn:E1; [lia |].
    destruct (u16 d =? 64) eqn:E2; [lia |].
    destruct (u16 d =? 256) eqn:E3; [lia | reflexivity]. }
  unfold timer_clock_of, timer_interrupt_enabled.
  rewrite !SetTimer_regs, C. cbn [after_SetTimer].
  split; [apply clock_select_stopped |].
  split; [| reflexivity].
  unfold OCIE0A. bit_blast. apply orb_true_r.
Qed.

Lemma SetTimer_unsupported_prescaler_witness :
  timer_clock_of
    (exec (SetTimer 1024 10) (sample_mcu 0 0 5 0 0 WAITING_FOR_TRIGGER))
    = ClockStopped /\
  timer_interrupt_enabled
    (exec (SetTimer 1024 10) (sample_mcu 0 0 5 0 0 WAITING_FOR_TRIGGER))
    = true /\
  regs (exec (SetTimer 1024 10) (sample_mcu 0 0 5 0 0 WAITING_FOR_TRIGGER))
    OCR0A = u8 (5 + u8 10).
Proof.
  apply (SetTimer_unsupported_prescaler 1024 10
           (sample_mcu 0 0 5 0 0 WAITING_FOR_TRIGGER));
    vm_compute; discriminate.
Defined.

Lemma after_SetTimer_keeps_bits (code : option Z) (v : Z) (f : reg -> Z) (n : Z) :
  code = Some 2 \/ code = Some 3 \/ code = Some 4 \/ code = None ->
  0 <= n < 8 ->
  (3 <= n -> Z.testbit (after_SetTimer code v f TCCR0B) n
             = Z.testbit (f TCCR0B) n) /\
  (n <> OCIE0A -> Z.testbit (after_SetTimer code v f TIMSK0) n
                  = Z.testbit (f TIMSK0) n).
Proof.
  intros Hc Hn. assert (H0 : 0 <= n) by lia.
  cbn [after_SetTimer]. unfold OCIE0A.
  generalize (f TCCR0B) (f TIMSK0); intros x y.
  split; intros Hb.
  - destruct Hc as [E | [E | [E | E]]]; subst code;
      push_testbit H0; each_bit n; try lia; abstract_bits.
  - push_testbit H0; each_bit n; try lia; abstract_bits.
Qed.

Lemma timer_off_keeps_bits (s : mcu) (n : Z) :
  0 <= n < 8 ->
  (3 <= n -> Z.testbit (regs (exec (TIMER_INT_OFF ;; TIMER_STOP) s) TCCR0B) n
             = Z.testbit (regs s TCCR0B) n) /\
  (n <> OCIE0A -> Z.testbit (regs (exec (TIMER_INT_OFF ;; TIMER_STOP) s) TIMSK0) n
                  = Z.testbit (regs s TIMSK0) n).
Proof.
  intros Hn. assert (H0 : 0 <= n) by lia.
  change (regs (exec (TIMER_INT_OFF ;; TIMER_STOP) s) TCCR0B)
    with (u8 (Z.land (regs s TCCR0B) (Z.lnot 7))).
  change (regs (exec (TIMER_INT_OFF ;; TIMER_STOP) s) TIMSK0)
    with (u8 (Z.land (regs s TIMSK0) (Z.lnot 4))).
  unfold OCIE0A.
  generalize (regs s TCCR0B) (regs s TIMSK0); intros x y.
  split; intros Hb; push_testbit H0; each_bit n; try lia; abstract_bits.
Qed.

(** [SetWaitingPulse], for any percentage, writes timer registers only:
    the port, the counter, the converter registers, the latched sample
    and the controller state keep their values, and within TCCR0B and
    TIMSK0 only the clock-select bits and the OCIE0A bit can change. *)
Theorem SetWaitingPulse_frame (percent : Z) (s : mcu) :
  (forall r, timer_reg r = false ->
             regs (exec (SetWaitingPulse percent) s) r = regs s r) /\
  ADCResult (exec (SetWaitingPulse percent) s) = ADCResult s /\
  state (exec (SetWaitingPulse percent) s) = state s /\
  output_asserted (exec (SetWaitingPulse percent) s) = output_asserted s /\
  (forall n, 3 <= n < 8 ->
             Z.testbit (regs (exec (SetWaitingPulse percent) s) TCCR0B) n
             = Z.testbit (regs s TCCR0B) n) /\
  (forall n, 0 <= n < 8 -> n <> OCIE0A ->
             Z.testbit (regs (exec (SetWaitingPulse percent) s) TIMSK0) n
             = Z.testbit (regs s TIMSK0) n).
Proof.
  destruct (timer_only_SetWaitingPulse percent s) as (R & A & S).
  split; [exact R |]. split; [exact A |]. split; [exact S |].
  split; [unfold output_asserted, exec; rewrite (R PORTB) by reflexivity;
          reflexivity |].
  assert (K : forall d v n, 0 <= n < 8 ->
            (3 <= n -> Z.testbit (regs (exec (SetTimer d v) s) TCCR0B) n
                       = Z.testbit (regs s TCCR0B) n) /\
            (n <> OCIE0A -> Z.testbit (regs (exec (SetTimer d v) s) TIMSK0) n
                            = Z.testbit (regs s TIMSK0) n)).
  { intros d v n Hn. rewrite !SetTimer_regs.
    apply after_SetTimer_keeps_bits;
      [apply clock_select_code_cases | exact Hn]. }
  assert (G : forall n, 0 <= n < 8 ->
            (3 <= n -> Z.testbit (regs (exec (SetWaitingPulse percent) s) TCCR0B) n
                       = Z.testbit (regs s TCCR0B) n) /\
            (n <> OCIE0A ->
             Z.testbit (regs (exec (SetWaitingPulse percent) s) TIMSK0) n
             = Z.testbit (regs s TIMSK0) n)).
  { intros n Hn. unfold SetWaitingPulse.
    destruct (u16 percent =? 100); [apply K; exact Hn |].
    destruct (u16 percent =? 0); [apply timer_off_keeps_bits; exact Hn |].
    cbv zeta.
    destruct (timeDelay percent <? 425); [apply K; exact Hn |].
    destruct (timeDelay percent <? 3400); apply K; exact Hn. }
  split.
  - intros n Hn. apply G; lia.
  - intros n Hn Hne. apply G; [lia | exact Hne].
Qed.

Lemma SetWaitingPulse_frame_witness :
  let s := sample_mcu 1 255 0 0 0 SWITCHING in
  Z.testbit (regs (exec (SetWaitingPulse 0) s) TIMSK0) 5
  = Z.testbit (regs s TIMSK0) 5 /\
  regs (exec (SetWaitingPulse 70) s) PORTB = regs s PORTB.
Proof.
  cbv zeta.
  pose proof (SetWaitingPulse_frame 0 (sample_mcu 1 255 0 0 0 SWITCHING))
    as (_ & _ & _ & _ & _ & B).
  pose proof (SetWaitingPulse_frame 70 (sample_mcu 1 255 0 0 0 SWITCHING))
    as (R & _).
  split.
  - apply B; [lia | unfold OCIE0A; lia].
  - apply R. reflexivity.
Defined.

(* ================================================================= *)
(** * Further properties of the handlers *)

Lemma after_ADCStart_set_state (c : controller_states) (x : mcu) (r : reg) :
  r <> ADCSRA ->
  regs (exec ADCStart (exec (set_state c) x)) r = regs x r.
Proof. intros Hr. destruct r; try reflexivity. contradiction Hr. reflexivity. Qed.

(** What the zero-cross handler leaves in the timer is what
    [SetWaitingPulse] put there. *)
Lemma INT0_vect_timer (s : mcu) :
  let s2 := exec (SetWaitingPulse (CalculateADCValue (u16 (ADCResult s))))
              (exec OPTOTRIAC_OFF s) in
  timer_clock_of (exec INT0_vect s) = timer_clock_of s2 /\
  timer_interrupt_enabled (exec INT0_vect s) = timer_interrupt_enabled s2 /\
  regs (exec INT0_vect s) OCR0A = regs s2 OCR0A.
Proof.
  cbv zeta. unfold timer_clock_of, timer_interrupt_enabled.
  rewrite INT0_vect_steps.
  rewrite !after_ADCStart_set_state by discriminate.
  repeat split.
Qed.

Lemma SetWaitingPulse_nonzero (p : Z) (s : mcu) :
  p = 100 \/ 1 <= p <= 89 ->
  exists d v,
    (d = 8 \/ d = 64 \/ d = 256) /\ SetWaitingPulse p = SetTimer d v.
Proof.
  intros [E | R].
  - subst p. exists 64, 74. split; [auto | reflexivity].
  - exists (chosen_prescaler (timeDelay p)),
           (CalculateRegisterValue (chosen_prescaler (timeDelay p)) (timeDelay p)).
    split; [apply chosen_prescaler_cases |].
    apply SetWaitingPulse_general. lia.
Qed.

Lemma INT0_vect_arms_timer (s : mcu) :
  CalculateADCValue (u16 (ADCResult s)) <> 0 ->
  timer_interrupt_enabled (exec INT0_vect s) = true.
Proof.
  intros Hp. destruct (INT0_vect_timer s) as (_ & I & _). rewrite I.
  destruct (CalculateADCValue_image (u16 (ADCResult s)) (u16_range _))
    as [E | [E | E]]; [contradiction | |].
  - destruct (SetWaitingPulse_nonzero _ s (or_intror E)) as (d & v & Hd & Eq).
    rewrite Eq. apply SetTimer_effect. exact Hd.
  - destruct (SetWaitingPulse_nonzero _ s (or_introl E)) as (d & v & Hd & Eq).
    rewrite Eq. apply SetTimer_effect. exact Hd.
Qed.

(** The zero-cross handler end to end: it starts a conversion and, from
    the latched sample alone, either stops the timer (sample below
    220), or arms it with prescaler 64 and count 74 (sample above 941),
    or arms it with the prescaler of the threshold chain and the exact
    count of the formula for the delay of that percentage. *)
Theorem zero_cross_programs_timer (s : mcu) :
  let p := CalculateADCValue (u16 (ADCResult s)) in
  Z.testbit (regs (exec INT0_vect s) ADCSRA) ADSC = true /\
  (p = 0 \/ p = 100 \/ 1 <= p <= 89) /\
  (p = 0 ->
   timer_clock_of (exec INT0_vect s) = ClockStopped /\
   timer_interrupt_enabled (exec INT0_vect s) = false) /\
  (p = 100 ->
   timer_clock_of (exec INT0_vect s) = ClockDiv 64 /\
   regs (exec INT0_vect s) OCR0A = u8 (regs s TCNT0 + 74) /\
   timer_interrupt_enabled (exec INT0_vect s) = true) /\
  (1 <= p <= 89 ->
   timer_clock_of (exec INT0_vect s) = ClockDiv (chosen_prescaler (timeDelay p)) /\
   regs (exec INT0_vect s) OCR0A
     = u8 (regs s TCNT0
           + compare_count_formula (chosen_prescaler (timeDelay p)) (timeDelay p)) /\
   timer_interrupt_enabled (exec INT0_vect s) = true).
Proof.
  cbv zeta.
  destruct (INT0_vect_timer s) as (C & I & O). cbv zeta in C, I, O.
  set (p := CalculateADCValue (u16 (ADCResult s))) in *.
  set (s1 := exec OPTOTRIAC_OFF s) in *.
  split.
  { rewrite INT0_vect_steps. fold p. fold s1.
    destruct (timer_only_SetWaitingPulse p s1) as (R & _ & _).
    change (regs (exec ADCStart
                    (exec (set_state WAITING_FOR_TRIGGER)
                       (exec (SetWaitingPulse p) s1))) ADCSRA)
      with (u8 (Z.lor (regs (exec (SetWaitingPulse p) s1) ADCSRA)
                  (Z.shiftl 1 ADSC))).
    unfold ADSC. bit_blast. apply orb_true_r. }
  split.
  { destruct (CalculateADCValue_image (u16 (ADCResult s)) (u16_range _))
      as [E | [E | E]]; fold p in E; auto. }
  rewrite C, I, O.
  split; [| split]; intros Hp.
  - rewrite Hp. change (SetWaitingPulse 0) with (TIMER_INT_OFF ;; TIMER_STOP).
    apply timer_disabled_effect.
  - rewrite Hp. change (SetWaitingPulse 100) with (SetTimer 64 74).
    destruct (SetTimer_effect 64 74 s1 ltac:(auto)) as (C1 & O1 & I1).
    repeat split; assumption.
  - rewrite (SetWaitingPulse_general p) by lia.
    destruct (general_branch_in_range p Hp) as (Ra & Ea & Ef).
    destruct (SetTimer_effect (chosen_prescaler (timeDelay p))
                (CalculateRegisterValue (chosen_prescaler (timeDelay p))
                   (timeDelay p)) s1 (chosen_prescaler_cases _))
      as (C1 & O1 & I1).
    split; [exact C1 |]. split; [| exact I1].
    rewrite O1, Ef.
    rewrite (u8_small (compare_count_formula _ _)) by (rewrite <- Ef, Ea; lia).
    reflexivity.
Qed.

Lemma zero_cross_programs_timer_witness :
  let s := mkMcu (regs (sample_mcu 1 0 9 0 0 SWITCHING)) [] 614 SWITCHING in
  timer_clock_of (exec INT0_vect s) = ClockDiv 256 /\
  regs (exec INT0_vect s) OCR0A = 83 /\
  timer_interrupt_enabled (exec INT0_vect s) = true.
Proof.
  cbv zeta.
  pose proof (zero_cross_programs_timer
                (mkMcu (regs (sample_mcu 1 0 9 0 0 SWITCHING)) [] 614 SWITCHING))
    as (_ & _ & _ & _ & G).
  cbv zeta in G.
  destruct (G ltac:(vm_compute; split; discriminate)) as (C & O & I).
  split; [exact C |]. split; [exact O | exact I].
Defined.

(** *** The timer handler, state by state *)

Lemma TIM0_COMPA_vect_waiting (s : mcu) :
  state s = WAITING_FOR_TRIGGER ->
  exec TIM0_COMPA_vect s
  = exec (SetTimer 8 149) (exec (set_state SWITCHING) (exec OPTOTRIAC_ON s)).
Proof.
  intros St. unfold TIM0_COMPA_vect.
  rewrite exec_get_state, St, !exec_seq. reflexivity.
Qed.

Lemma TIM0_COMPA_vect_switching (s : mcu) :
  state s = SWITCHING -> exec TIM0_COMPA_vect s = exec OPTOTRIAC_OFF s.
Proof.
  intros St. unfold TIM0_COMPA_vect. rewrite exec_get_state, St. reflexivity.
Qed.

Lemma TIM0_COMPA_vect_fires (s : mcu) :
  state s = WAITING_FOR_TRIGGER ->
  output_asserted (exec TIM0_COMPA_vect s) = true /\
  state (exec TIM0_COMPA_vect s) = SWITCHING /\
  timer_interrupt_enabled (exec TIM0_COMPA_vect s) = true /\
  timer_clock_of (exec TIM0_COMPA_vect s) = ClockDiv 8.
Proof.
  intros St. rewrite (TIM0_COMPA_vect_waiting s St).
  set (s1 := exec (set_state SWITCHING) (exec OPTOTRIAC_ON s)).
  destruct (timer_only_SetTimer 8 149 s1) as (R & _ & S1).
  destruct (SetTimer_effect 8 149 s1 ltac:(auto)) as (C & _ & I).
  split; [| split; [| split; [exact I | exact C]]].
  - unfold output_asserted, exec at 1. rewrite (R PORTB) by reflexivity.
    apply (output_after_on (regs s PORTB)).
  - unfold exec at 1. rewrite S1. reflexivity.
Qed.

Lemma handler_keeps_pulse_guarded (e : event) (s : mcu) :
  pulse_guarded s -> pulse_guarded (exec (handler e) s).
Proof.
  intros G. destruct e; cbn [handler].
  - intros Ho. destruct (INT0_vect_effect s) as [Off _]. congruence.
  - rewrite ADC_vect_closed_form. exact G.
  - destruct (state s) eqn:St.
    + intros _. destruct (TIM0_COMPA_vect_fires s St) as (_ & S' & I & C).
      auto.
    + rewrite (TIM0_COMPA_vect_switching s St). intros Ho.
      pose proof (output_after_off (regs s PORTB)) as Off.
      change (output_asserted (exec OPTOTRIAC_OFF s))
        with (Z.testbit (u8 (Z.land (regs s PORTB) (Z.lnot (Z.shiftl 1 PB0)))) PB0)
        in Ho.
      congruence.
Qed.

Lemma system_step_keeps_pulse_guarded (s s' : mcu) :
  system_step s s' -> pulse_guarded s -> pulse_guarded s'.
Proof.
  intros Hstep G. destruct Hstep as [s s' P | e s _].
  - destruct P as (Pb & Tc & Tm & _ & _ & _ & St).
    unfold pulse_guarded, output_asserted, timer_interrupt_enabled,
      timer_clock_of in *.
    rewrite Pb, Tc, Tm, St. exact G.
  - apply handler_keeps_pulse_guarded. exact G.
Qed.

(** Along every run of the system -- zero-cross, conversion-complete
    and timer interrupts in any order, with the peripherals moving in
    between -- the output is asserted only in state [SWITCHING] and only
    while the timer that ends the pulse is running with prescaler 8 and
    its interrupt enabled. *)
Theorem output_asserted_only_with_timer_armed (s s' : mcu)
    (Hrun : system_run s s') (Hinit : pulse_guarded s) :
  pulse_guarded s'.
Proof.
  induction Hrun as [s | s1 s2 s3 Hstep _ IH].
  - exact Hinit.
  - apply IH. apply (system_step_keeps_pulse_guarded s1 s2 Hstep Hinit).
Qed.

Lemma output_asserted_only_with_timer_armed_witness :
  pulse_guarded
    (exec TIM0_COMPA_vect
       (exec INT0_vect
          (mkMcu (regs (sample_mcu 0 0 9 0 0 WAITING_FOR_TRIGGER)) [] 614
             WAITING_FOR_TRIGGER))).
Proof.
  apply (output_asserted_only_with_timer_armed
           (mkMcu (regs (sample_mcu 0 0 9 0 0 WAITING_FOR_TRIGGER)) [] 614
              WAITING_FOR_TRIGGER)).
  - eapply sys_trans; [apply (sys_interrupt ZeroCross); reflexivity |].
    eapply sys_trans; [apply (sys_interrupt TimerExpiry); reflexivity |].
    apply sys_refl.
  - intros H. vm_compute in H. discriminate H.
Defined.

(** One firing pulse: after a zero crossing with a non-zero percentage
    the timer interrupt is enabled; its first expiry asserts the output
    and leaves the interrupt enabled; the second expiry de-asserts the
    output; the three handlers form a run of the system. *)
Theorem firing_pulse_sequence (s : mcu)
    (Hp : CalculateADCValue (u16 (ADCResult s)) <> 0) :
  let s1 := exec INT0_vect s in
  let s2 := exec TIM0_COMPA_vect s1 in
  let s3 := exec TIM0_COMPA_vect s2 in
  (output_asserted s1 = false /\ enabled TimerExpiry s1 = true) /\
  (output_asserted s2 = true /\ enabled TimerExpiry s2 = true) /\
  (output_asserted s3 = false /\ state s3 = SWITCHING) /\
  system_run s s3.
Proof.
  cbv zeta.
  destruct (INT0_vect_effect s) as [O1 St1].
  pose proof (INT0_vect_arms_timer s Hp) as I1.
  destruct (TIM0_COMPA_vect_fires (exec INT0_vect s) St1) as (O2 & St2 & I2 & _).
  pose proof (TIM0_COMPA_vect_switching _ St2) as E3.
  split; [split; [exact O1 | exact I1] |].
  split; [split; [exact O2 | exact I2] |].
  split.
  - rewrite E3. split; [| exact St2].
    apply (output_after_off (regs (exec TIM0_COMPA_vect (exec INT0_vect s)) PORTB)).
  - eapply sys_trans; [apply (sys_interrupt ZeroCross); reflexivity |].
    eapply sys_trans; [apply (sys_interrupt TimerExpiry); exact I1 |].
    eapply sys_trans; [apply (sys_interrupt TimerExpiry); exact I2 |].
    apply sys_refl.
Qed.

Lemma firing_pulse_sequence_witness :
  let s := mkMcu (regs (sample_mcu 1 0 9 0 0 SWITCHING)) [] 1000 SWITCHING in
  output_asserted (exec TIM0_COMPA_vect (exec INT0_vect s)) = true /\
  output_asserted
    (exec TIM0_COMPA_vect (exec TIM0_COMPA_vect (exec INT0_vect s))) = false.
Proof.
  cbv zeta.
  pose proof (firing_pulse_sequence
                (mkMcu (regs (sample_mcu 1 0 9 0 0 SWITCHING)) [] 1000 SWITCHING)
                ltac:(vm_compute; discriminate))
    as (_ & (O2 & _) & (O3 & _) & _).
  split; [exact O2 | exact O3].
Defined.

(* ================================================================= *)
(** * Start-up *)

Lemma main_startup_core (b : board) :
  core (main_startup b)
  = exec ADCStart
      (exec (v <- rd ADCSRA ;;
             wr ADCSRA (Z.lor v (Z.lor (Z.shiftl 1 ADEN) (Z.shiftl 1 ADIE))))
         (exec OPTOTRIAC_OFF (core b))).
Proof. reflexivity. Qed.

(** After [PinsInit(); sei(); ADCStart();], from any register contents:
    PB0 is an output and de-asserted; INT0 is enabled on the rising
    edge; the converter is enabled on channel ADC3 with its interrupt
    and a first conversion is started; interrupts are globally enabled.
    The timer registers, the latched sample and the controller state
    are not touched: the timer is first programmed by a zero crossing.
    The result adjustment and reference bits of ADMUX keep their
    values. *)
Theorem startup_configuration (b : board) :
  (output_asserted (core (main_startup b)) = false /\
   Z.testbit (cfg (main_startup b) DDRB) DDB0 = true) /\
  (Z.testbit (cfg (main_startup b) MCUCR) ISC00 = true /\
   Z.testbit (cfg (main_startup b) MCUCR) ISC01 = true /\
   Z.testbit (cfg (main_startup b) GIMSK) INT0 = true) /\
  (Z.testbit (cfg (main_startup b) DIDR0) ADC3D = true /\
   Z.testbit (cfg (main_startup b) ADMUX) MUX0 = true /\
   Z.testbit (cfg (main_startup b) ADMUX) MUX1 = true /\
   Z.testbit (regs (core (main_startup b)) ADCSRA) ADEN = true /\
   Z.testbit (regs (core (main_startup b)) ADCSRA) ADIE = true /\
   Z.testbit (regs (core (main_startup b)) ADCSRA) ADSC = true) /\
  global_interrupts (main_startup b) = true /\
  (forall r, r <> PORTB -> r <> ADCSRA ->
             regs (core (main_startup b)) r = regs (core b) r) /\
  ADCResult (core (main_startup b)) = ADCResult (core b) /\
  state (core (main_startup b)) = state (core b) /\
  (forall n, 2 <= n < 8 ->
             Z.testbit (cfg (main_startup b) ADMUX) n
             = Z.testbit (cfg b ADMUX) n).
Proof.
  split; [| split; [| split; [| split; [| split; [| split; [| split]]]]]].
  - split.
    + rewrite main_startup_core. apply (output_after_off (regs (core b) PORTB)).
    + change (cfg (main_startup b) DDRB)
        with (u8 (Z.lor (cfg b DDRB) (Z.shiftl 1 DDB0))).
      unfold DDB0. bit_blast. apply orb_true_r.
  - change (cfg (main_startup b) MCUCR)
      with (u8 (Z.lor (cfg b MCUCR) (Z.lor (Z.shiftl 1 ISC00) (Z.shiftl 1 ISC01)))).
    change (cfg (main_startup b) GIMSK)
      with (u8 (Z.lor (cfg b GIMSK) (Z.shiftl 1 INT0))).
    unfold ISC00, ISC01, INT0. bit_blast.
    repeat split; apply orb_true_r.
  - change (cfg (main_startup b) DIDR0)
      with (u8 (Z.lor (cfg b DIDR0) (Z.shiftl 1 ADC3D))).
    change (cfg (main_startup b) ADMUX)
      with (u8 (Z.lor (cfg b ADMUX) (Z.lor (Z.shiftl 1 MUX0) (Z.shiftl 1 MUX1)))).
    rewrite main_startup_core.
    change (regs (exec ADCStart
                    (exec (v <- rd ADCSRA ;;
                           wr ADCSRA (Z.lor v (Z.lor (Z.shiftl 1 ADEN)
                                                 (Z.shiftl 1 ADIE))))
                       (exec OPTOTRIAC_OFF (core b)))) ADCSRA)
      with (u8 (Z.lor (u8 (Z.lor (regs (core b) ADCSRA)
                             (Z.lor (Z.shiftl 1 ADEN) (Z.shiftl 1 ADIE))))
                  (Z.shiftl 1 ADSC))).
    unfold ADC3D, MUX0, MUX1, ADEN, ADIE, ADSC. bit_blast.
    generalize (Z.testbit (regs (core b) ADCSRA) 7)
      (Z.testbit (regs (core b) ADCSRA) 3) (Z.testbit (regs (core b) ADCSRA) 6).
    intros b7 b3 b6.
    repeat split; try apply orb_true_r; destruct b7, b3, b6; reflexivity.
  - reflexivity.
  - intros r Hp Ha. rewrite main_startup_core.
    destruct r; try reflexivity; [contradiction Hp | contradiction Ha];
      reflexivity.
  - reflexivity.
  - reflexivity.
  - intros n Hn. assert (H0 : 0 <= n) by lia.
    change (cfg (main_startup b) ADMUX)
      with (u8 (Z.lor (cfg b ADMUX) (Z.lor (Z.shiftl 1 MUX0) (Z.shiftl 1 MUX1)))).
    change (Z.lor (Z.shiftl 1 MUX0) (Z.shiftl 1 MUX1)) with 3.
    generalize (cfg b ADMUX); intros x.
    push_testbit H0. each_bit n; try lia; abstract_bits.
Qed.

Lemma startup_configuration_witness :
  let reset := mkBoard (sample_mcu 0 0 0 0 0 WAITING_FOR_TRIGGER)
                 (fun _ => 0) false in
  cfg (main_startup reset) ADMUX = 3 /\
  regs (core (main_startup reset)) TCCR0B = 0 /\
  Z.testbit (cfg (main_startup reset) ADMUX) 5 = false.
Proof.
  cbv zeta.
  pose proof (startup_configuration
                (mkBoard (sample_mcu 0 0 0 0 0 WAITING_FOR_TRIGGER)
                   (fun _ => 0) false))
    as (_ & _ & _ & _ & R & _ & _ & A).
  split; [reflexivity |].
  split; [apply R; discriminate |].
  rewrite A by lia. reflexivity.
Defined.
